(** * Offline-first POS client: stock consistency and checkout

    A shallow embedding of the service layer of the point-of-sale client
    ([storageService], [productService], [authService]) and of the
    checkout handler of [CheckoutModal], with the properties of the
    stock-consistency engine proved over it; then of the cart of
    [OrderScreen] and of the item lookup of [TransactionsScreen], with
    what the code shows about them.

    Modelling choices, stated once:
    - Every [async] function is sequential code over two stores, the
      Supabase backend and the device's AsyncStorage.  It is written in a
      state-and-exception monad [M] over [World]; [await] is bind,
      [throw] is [throw], [try { } catch { }] is [try_catch].
    - What the outside world answers (connectivity, whether a backend call
      replies with an [error], the clock, the ids the backend mints) is an
      oracle [Env] indexed by a counter of external calls, so every
      theorem quantifies over all connectivity and failure patterns.
    - A backend call that fails replies [{ error }] and leaves the tables
      as they were; this is the convention the source relies on in every
      [if (error) throw error].
    - AsyncStorage is a finite map from keys to values.  Values are kept
      typed rather than as JSON text ([JSON.parse (JSON.stringify v) = v]
      on the records stored here), and its calls succeed, so the [catch]
      blocks of [storageService] that only log are not reachable.
    - [console.error] output is not part of the state.
    - Stock and quantities are integers ([Z]); money is an exact rational
      ([Q]), with a separate [NaN] for what [parseFloat] yields on text
      without digits. *)

From Stdlib Require Import Ascii String QArith.
From stdpp Require Import base strings gmap list sorting pretty.

Open Scope string_scope.
Open Scope Z_scope.

(** ** Data model *)

(** A row id is a JS number or a JS string; [===] never identifies the two. *)
Inductive Id : Type :=
  | IdNum (n : Z)
  | IdStr (s : string).

#[global] Instance Id_eq_dec : EqDecision Id.
Proof. solve_decision. Defined.

(** [`${id}`] *)
Definition Id_to_string (i : Id) : string :=
  match i with
  | IdNum n => pretty n
  | IdStr s => s
  end.

(** The object the product form submits to [createProduct]. *)
Record ProductDraft : Type := mkDraft {
  draft_barcode : option string;
  draft_name : string;
  draft_price : Q;
  draft_stock : Z;
  draft_category : option string;
}.

(** A row of [products].  [created_at] is the instant in milliseconds whose
    ISO-8601 text the source stores. *)
Record Product : Type := mkProduct {
  id : Id;
  created_at : N;
  barcode : option string;
  name : string;
  price : Q;
  stock : Z;
  category : option string;
}.

(** [{ ...draft, id: i, created_at: t }] *)
Definition extend_draft (d : ProductDraft) (i : Id) (t : N) : Product :=
  {| id := i; created_at := t;
     barcode := draft_barcode d; name := draft_name d;
     price := draft_price d; stock := draft_stock d;
     category := draft_category d |}.

Definition draft_of (p : Product) : ProductDraft :=
  {| draft_barcode := barcode p; draft_name := name p;
     draft_price := price p; draft_stock := stock p;
     draft_category := category p |}.

(** [{ ...p, stock: s }] *)
Definition with_stock (p : Product) (s : Z) : Product :=
  {| id := id p; created_at := created_at p; barcode := barcode p;
     name := name p; price := price p; stock := s;
     category := category p |}.

(** A cart line is [{ ...product, quantity }]. *)
Record CartItem : Type := mkItem {
  item_product :> Product;
  quantity : Z;
}.

(** A JS number that may be [NaN]. *)
Inductive num : Type :=
  | NaN
  | Fin (q : Q).

Definition num_sub (a : num) (b : Q) : num :=
  match a with
  | NaN => NaN
  | Fin q => Fin (q - b)
  end.

(** [a >= b]; any comparison with [NaN] is false. *)
Definition num_ge (a : num) (b : Q) : bool :=
  match a with
  | NaN => false
  | Fin q => Qle_bool b q
  end.

Record Transaction : Type := mkTransaction {
  tx_id : Id;
  tx_total : Q;
  tx_cash_given : num;
  tx_change : num;
  tx_status : string;
  tx_created_at : N;
  tx_updated_at : N;
}.

Record TransactionItem : Type := mkTransactionItem {
  transaction_id : Id;
  product_id : Id;
  ti_quantity : Z;
  ti_price : Q;
}.

Record Session : Type := mkSession {
  access_token : option string;
  user_email : string;
}.

Inductive Error : Type :=
  | Err (message : string).

Definition message (e : Error) : string :=
  match e with Err m => m end.

(** ** The two stores *)

Record Remote : Type := mkRemote {
  products : list Product;
  transactions : list Transaction;
  transaction_items : list TransactionItem;
}.

(** What a key of AsyncStorage holds. *)
Inductive Stored : Type :=
  | SProducts (ps : list Product)
  | SSession (s : Session)
  | SText (s : string).

Record World : Type := mkWorld {
  remote : Remote;
  storage : gmap string Stored;
  calls : nat;
}.

(** What the environment answers at the [n]-th external call. *)
Record Env : Type := mkEnv {
  net_online : nat -> bool;
  remote_error : nat -> option Error;
  date_now : nat -> N;
  server_id : nat -> Id;
  server_now : nat -> N;
}.

(** ** The monad of [async] code *)

Inductive Result (A : Type) : Type :=
  | Ok (a : A)
  | Throw (e : Error).
Arguments Ok {A} a.
Arguments Throw {A} e.

Definition M (A : Type) : Type := World -> Result A * World.

Definition ret {A} (a : A) : M A := fun w => (Ok a, w).

Definition bind {A B} (m : M A) (k : A -> M B) : M B :=
  fun w =>
    match m w with
    | (Ok a, w') => k a w'
    | (Throw e, w') => (Throw e, w')
    end.

Definition throw {A} (e : Error) : M A := fun w => (Throw e, w).

Definition try_catch {A} (m : M A) (handler : Error -> M A) : M A :=
  fun w =>
    match m w with
    | (Ok a, w') => (Ok a, w')
    | (Throw e, w') => handler e w'
    end.

Notation "'let*' x ':=' m 'in' k" := (bind m (fun x => k))
  (at level 10, x name, m at level 100, k at level 200).
Notation "m ';;;' k" := (bind m (fun _ => k))
  (at level 100, k at level 200, right associativity).

(** One more external call has been made; which one it is. *)
Definition next_call : M nat :=
  fun w => (Ok (calls w),
            {| remote := remote w; storage := storage w; calls := S (calls w) |}).

Definition get_remote : M Remote := fun w => (Ok (remote w), w).
Definition put_remote (r : Remote) : M unit :=
  fun w => (Ok tt, {| remote := r; storage := storage w; calls := calls w |}).
Definition get_storage : M (gmap string Stored) := fun w => (Ok (storage w), w).
Definition put_storage (s : gmap string Stored) : M unit :=
  fun w => (Ok tt, {| remote := remote w; storage := s; calls := calls w |}).

(** ** AsyncStorage *)

Module AsyncStorage.

Definition getItem (key : string) : M (option Stored) :=
  let* s := get_storage in ret (s !! key).

Definition setItem (key : string) (v : Stored) : M unit :=
  let* s := get_storage in put_storage (<[key := v]> s).

Definition multiRemove (keys : list string) : M unit :=
  let* s := get_storage in
  put_storage (foldr (fun k acc => delete k acc) s keys).

End AsyncStorage.

(** ** The Supabase client *)

Inductive Reply (A : Type) : Type :=
| Failed (error : Error)
| Data (data : A).
Arguments Failed {A} error.
Arguments Data {A} data.

(** ** Edits and sign-in data *)

(** The object the edit form submits to [updateProduct]: the editable
    fields, each present or not.  [id] and [created_at] are not among
    them. *)
Record ProductPatch : Type := mkPatch {
  patch_barcode : option (option string);
  patch_name : option string;
  patch_price : option Q;
  patch_stock : option Z;
  patch_category : option (option string);
}.

(** [{ ...p, ...patch }] *)
Definition apply_patch (p : Product) (patch : ProductPatch) : Product :=
  {| id := id p; created_at := created_at p;
     barcode := default (barcode p) (patch_barcode patch);
     name := default (name p) (patch_name patch);
     price := default (price p) (patch_price patch);
     stock := default (stock p) (patch_stock patch);
     category := default (category p) (patch_category patch) |}.

(** What [updateProduct] returns: the backend's row when online, and
    [{ id, ...patch }] when offline. *)
Inductive UpdateResult : Type :=
  | UpdatedRow (row : Product)
  | LocalEcho (pid : Id) (patch : ProductPatch).

(** The [data] of a successful [signInWithPassword]. *)
Record AuthData : Type := mkAuthData {
  data_user : string;
  data_session : Session;
}.

(** What [signIn] returns: the backend's [data], or [{ session }] built
    from the stored session. *)
Inductive SignInResult : Type :=
  | SignedIn (data : AuthData)
  | Restored (session : Session).

(** What the auth backend and the connectivity probe answer at the [n]-th
    external call.  [is_connected] is [state.isConnected] alone, which is
    what [authService] looks at. *)
Record AuthEnv : Type := mkAuthEnv {
  is_connected : nat -> bool;
  sign_in_reply : nat -> string -> string -> Reply AuthData;
  session_reply : nat -> option Session * option Error;
  refresh_reply : nat -> option Session * option Error;
}.

(** [a] may be listed before [b] when ordering by [created_at] descending. *)
Definition not_older (a b : Product) : Prop := (created_at b <= created_at a)%N.

#[global] Instance not_older_dec (a b : Product) : Decision (not_older a b).
Proof. unfold not_older. apply _. Defined.

Module supabase.
Section WithEnv.
Variable env : Env.

(** A request either fails and changes nothing, or runs on the tables. *)
Definition request {A} (run : nat -> Remote -> Reply A * Remote) : M (Reply A) :=
  let* n := next_call in
  match remote_error env n with
  | Some e => ret (Failed e)
  | None =>
      let* r := get_remote in
      put_remote (snd (run n r)) ;;; ret (fst (run n r))
  end.

Definition set_products (r : Remote) (ps : list Product) : Remote :=
  {| products := ps; transactions := transactions r;
     transaction_items := transaction_items r |}.

(** [.from("products").select("*").order("created_at", { ascending: false })] *)
Definition newest_first (ps : list Product) : list Product :=
  merge_sort not_older ps.

Definition select_products : M (Reply (list Product)) :=
  request (fun _ r => (Data (newest_first (products r)), r)).

(** [.from("products").insert(product).select().single()] *)
Definition insert_product (d : ProductDraft) : M (Reply Product) :=
  request (fun n r =>
    let row := extend_draft d (server_id env n) (server_now env n) in
    (Data row, set_products r (products r ++ [row]))).

Definition set_stock_where (pid : Id) (v : Z) (ps : list Product) : list Product :=
  (fun p => if bool_decide (id p = pid) then with_stock p v else p) <$> ps.

(** [.from("products").update({ stock: v }).eq("id", pid)] *)
Definition update_stock (pid : Id) (v : Z) : M (Reply unit) :=
  request (fun _ r => (Data tt, set_products r (set_stock_where pid v (products r)))).

(** [.from("products").update({ stock: v }).eq("id", pid).select().single()]:
    [single()] replies with an error when no row has that id. *)
Definition update_stock_single (pid : Id) (v : Z) : M (Reply Product) :=
  request (fun _ r =>
    match find (fun p => bool_decide (id p = pid)) (products r) with
    | None => (Failed (Err "JSON object requested, multiple (or no) rows returned"), r)
    | Some p => (Data (with_stock p v),
                 set_products r (set_stock_where pid v (products r)))
    end).

(** [.from("transactions").insert({...}).select().single()] *)
Definition insert_transaction (total : Q) (cash_given change : num)
    (status : string) (created updated : N) : M (Reply Transaction) :=
  request (fun n r =>
    let row := {| tx_id := server_id env n; tx_total := total;
                  tx_cash_given := cash_given; tx_change := change;
                  tx_status := status; tx_created_at := created;
                  tx_updated_at := updated |} in
    (Data row, {| products := products r;
                  transactions := transactions r ++ [row];
                  transaction_items := transaction_items r |})).

(** [.from("transaction_items").insert(rows)] *)
Definition insert_transaction_items (rows : list TransactionItem) : M (Reply unit) :=
  request (fun _ r =>
    (Data tt, {| products := products r;
                 transactions := transactions r;
                 transaction_items := transaction_items r ++ rows |})).

(** [supabase.auth.signOut()] replies [{ error }]; the reply is the only
    thing the caller could look at. *)
Definition auth_signOut : M (Reply unit) :=
  request (fun _ r => (Data tt, r)).

(** [.from("products").update(patch).eq("id", pid).select().single()] *)
Definition update_product_single (pid : Id) (patch : ProductPatch)
    : M (Reply Product) :=
  request (fun _ r =>
    match find (fun p => bool_decide (id p = pid)) (products r) with
    | None => (Failed (Err "JSON object requested, multiple (or no) rows returned"), r)
    | Some p =>
        (Data (apply_patch p patch),
         set_products r
           ((fun q => if bool_decide (id q = pid) then apply_patch q patch else q)
            <$> products r))
    end).

(** [.from("products").delete().eq("id", pid)] *)
Definition delete_product (pid : Id) : M (Reply unit) :=
  request (fun _ r =>
    (Data tt, set_products r (filter (fun p => id p <> pid) (products r)))).

(** [.from("products").select("stock").eq("id", pid).single()] *)
Definition select_stock_single (pid : Id) : M (Reply Z) :=
  request (fun _ r =>
    match find (fun p => bool_decide (id p = pid)) (products r) with
    | None => (Failed (Err "JSON object requested, multiple (or no) rows returned"), r)
    | Some p => (Data (stock p), r)
    end).

(** [.from("transaction_items").select("*, product:products(name)")
    .eq("transaction_id", tid)]: each item row of the transaction, with
    the name of the product it points to, if that product exists. *)
Definition select_transaction_items (tid : Id)
    : M (Reply (list (TransactionItem * option string))) :=
  request (fun _ r =>
    (Data ((fun i =>
              (i, name <$> find (fun p => bool_decide (id p = product_id i))
                             (products r)))
           <$> filter (fun i => transaction_id i = tid) (transaction_items r)),
     r)).

End WithEnv.

Section WithAuth.
Variable auth : AuthEnv.

(** [supabase.auth.signInWithPassword({ email, password })] *)
Definition auth_signInWithPassword (email password : string)
    : M (Reply AuthData) :=
  let* n := next_call in ret (sign_in_reply auth n email password).

(** [supabase.auth.getSession()], as [({ data: { session }, error })] *)
Definition auth_getSession : M (option Session * option Error) :=
  let* n := next_call in ret (session_reply auth n).

(** [supabase.auth.refreshSession()] *)
Definition auth_refreshSession : M (option Session * option Error) :=
  let* n := next_call in ret (refresh_reply auth n).

(** [NetInfo.fetch()], of which the caller reads [isConnected] *)
Definition NetInfo_isConnected : M bool :=
  let* n := next_call in ret (is_connected auth n).

End WithAuth.
End supabase.

(** ** storageService *)

Module storageService.

Definition KEYS_SESSION : string := "user-session".
Definition KEYS_AUTH_TOKEN : string := "auth-token".
Definition PRODUCTS_KEY : string := "products".

Definition saveSession (session : Session) : M unit :=
  AsyncStorage.setItem KEYS_SESSION (SSession session) ;;;
  match access_token session with
  | Some tok => if bool_decide (tok = "") then ret tt
                else AsyncStorage.setItem KEYS_AUTH_TOKEN (SText tok)
  | None => ret tt
  end.

Definition getSession : M (option Session) :=
  let* v := AsyncStorage.getItem KEYS_SESSION in
  match v with
  | Some (SSession s) => ret (Some s)
  | _ => ret None
  end.

Definition clearSession : M unit :=
  AsyncStorage.multiRemove [KEYS_SESSION; KEYS_AUTH_TOKEN].

Definition getProducts : M (list Product) :=
  let* v := AsyncStorage.getItem PRODUCTS_KEY in
  match v with
  | Some (SProducts ps) => ret ps
  | _ => ret []
  end.

Definition saveProducts (ps : list Product) : M unit :=
  AsyncStorage.setItem PRODUCTS_KEY (SProducts ps).

End storageService.

(** ** productService *)

(** One entry of the argument of [batchUpdateProductStock]. *)
Record StockUpdate : Type := mkUpdate {
  productId : Id;
  newStock : Z;
}.

(** One entry of [insufficientItems]. *)
Record Shortfall : Type := mkShortfall {
  short_id : Id;
  short_name : string;
  requested : Z;
  available : Z;
}.

Record StockCheck : Type := mkStockCheck {
  success : bool;
  check_message : string;
  insufficientItems : list Shortfall;
}.

(** [for (const x of xs) { await body(x) }] *)
Fixpoint for_of {A} (xs : list A) (body : A -> M unit) : M unit :=
  match xs with
  | [] => ret tt
  | x :: rest => body x ;;; for_of rest body
  end.

(** [Date.now()] and [new Date()] both read the device clock. *)
Module Date.
Section WithEnv.
Variable env : Env.

Definition now : M N :=
  let* n := next_call in ret (date_now env n).

End WithEnv.
End Date.

Module productService.
Section WithEnv.
Variable env : Env.

Definition checkIsOnline : M bool :=
  let* n := next_call in ret (net_online env n).

Definition getProducts : M (list Product) :=
  try_catch
    (let* isOnline := checkIsOnline in
     if isOnline then
       let* reply := supabase.select_products env in
       match reply with
       | Failed error => throw error
       | Data data => storageService.saveProducts data ;;; ret data
       end
     else storageService.getProducts)
    (fun _ => storageService.getProducts).

Definition createProduct (product : ProductDraft) : M Product :=
  try_catch
    (let* isOnline := checkIsOnline in
     if isOnline then
       let* reply := supabase.insert_product env product in
       match reply with
       | Failed error => throw error
       | Data data =>
           let* products := storageService.getProducts in
           storageService.saveProducts (data :: products) ;;; ret data
       end
     else
       let* products := storageService.getProducts in
       let* now := Date.now env in
       let* today := Date.now env in
       let newProduct := extend_draft product (IdStr ("temp_" +:+ pretty now)) today in
       storageService.saveProducts (newProduct :: products) ;;; ret newProduct)
    (fun error => throw error).

Definition updateProduct (pid : Id) (product : ProductPatch) : M UpdateResult :=
  try_catch
    (let* isOnline := checkIsOnline in
     if isOnline then
       let* reply := supabase.update_product_single env pid product in
       match reply with
       | Failed error => throw error
       | Data data =>
           let* products := storageService.getProducts in
           let updated :=
             (fun p => if bool_decide (id p = pid) then data else p) <$> products in
           storageService.saveProducts updated ;;; ret (UpdatedRow data)
       end
     else
       let* products := storageService.getProducts in
       let updated :=
         (fun p => if bool_decide (id p = pid) then apply_patch p product else p)
         <$> products in
       storageService.saveProducts updated ;;; ret (LocalEcho pid product))
    (fun error => throw error).

Definition deleteProduct (pid : Id) : M bool :=
  try_catch
    (let* isOnline := checkIsOnline in
     (if isOnline then
        let* reply := supabase.delete_product env pid in
        match reply with
        | Failed error => throw error
        | Data _ => ret tt
        end
      else ret tt) ;;;
     let* products := storageService.getProducts in
     let filtered := filter (fun p => id p <> pid) products in
     storageService.saveProducts filtered ;;; ret true)
    (fun error => throw error).

Definition updateProductStock (productId : Id) (newStockQuantity : Z) : M bool :=
  try_catch
    (let* isOnline := checkIsOnline in
     if isOnline then
       let* reply := supabase.update_stock_single env productId newStockQuantity in
       match reply with
       | Failed error => throw error
       | Data _ =>
           let* products := storageService.getProducts in
           let updated :=
             (fun p => if bool_decide (id p = productId)
                       then with_stock p newStockQuantity else p) <$> products in
           storageService.saveProducts updated ;;; ret true
       end
     else
       let* products := storageService.getProducts in
       let updated :=
         (fun p => if bool_decide (id p = productId)
                   then with_stock p newStockQuantity else p) <$> products in
       storageService.saveProducts updated ;;; ret true)
    (fun _ => ret false).

(** The cache rewrite of [batchUpdateProductStock]: each product takes the
    stock of the first update that names it. *)
Definition apply_updates (updates : list StockUpdate) (products : list Product)
    : list Product :=
  (fun product =>
     match find (fun u => bool_decide (productId u = id product)) updates with
     | Some update => with_stock product (newStock update)
     | None => product
     end) <$> products.

Definition batchUpdateProductStock (updates : list StockUpdate) : M bool :=
  try_catch
    (let* isOnline := checkIsOnline in
     (if isOnline then
        for_of updates (fun update =>
          (* a failed row is logged and the loop goes on *)
          supabase.update_stock env (productId update) (newStock update) ;;; ret tt)
      else ret tt) ;;;
     let* products := storageService.getProducts in
     let updatedProducts := apply_updates updates products in
     storageService.saveProducts updatedProducts ;;; ret true)
    (fun _ => ret false).

(** [null] is [None]. *)
Definition getProductStock (pid : Id) : M (option Z) :=
  try_catch
    (let* isOnline := checkIsOnline in
     if isOnline then
       let* reply := supabase.select_stock_single env pid in
       match reply with
       | Failed error => throw error
       | Data data => ret (Some data)
       end
     else
       let* products := storageService.getProducts in
       ret (stock <$> find (fun p => bool_decide (id p = pid)) products))
    (fun _ => ret None).

(** [!product || product.stock < item.quantity] *)
Definition is_insufficient (products : list Product) (item : CartItem) : bool :=
  match find (fun p => bool_decide (id p = id item)) products with
  | None => true
  | Some p => stock p <? quantity item
  end.

(** The object pushed on [insufficientItems] for a line. *)
Definition insufficient_entry (products : list Product) (item : CartItem)
    : Shortfall :=
  let product := find (fun p => bool_decide (id p = id item)) products in
  {| short_id := id item;
     short_name :=
       match product with
       | Some p => if bool_decide (name p = "")
                   then "Product #" +:+ Id_to_string (id item) else name p
       | None => "Product #" +:+ Id_to_string (id item)
       end;
     requested := quantity item;
     available := match product with Some p => stock p | None => 0 end |}.

(** The loop of [checkStockAvailability] that fills [insufficientItems]. *)
Fixpoint collect_insufficient (products : list Product) (items : list CartItem)
    : list Shortfall :=
  match items with
  | [] => []
  | item :: rest =>
      if is_insufficient products item
      then insufficient_entry products item :: collect_insufficient products rest
      else collect_insufficient products rest
  end.

Definition checkStockAvailability (items : list CartItem) : M StockCheck :=
  try_catch
    (let* products := getProducts in
     let insufficient := collect_insufficient products items in
     if (0 <? length insufficient)%nat then
       ret {| success := false;
              check_message := "Some items have insufficient stock";
              insufficientItems := insufficient |}
     else
       ret {| success := true;
              check_message := "Stock is available";
              insufficientItems := [] |})
    (fun _ =>
       ret {| success := false;
              check_message := "Error checking stock availability";
              insufficientItems := [] |}).

(** The [updates] that [deductStockAfterCheckout] prepares from a product
    view. *)
Definition prepare_updates (products : list Product) (items : list CartItem)
    : list StockUpdate :=
  (fun item : CartItem =>
     let product := find (fun p => bool_decide (id p = id item)) products in
     {| productId := id item;
        newStock := Z.max 0 (match product with Some p => stock p | None => 0 end
                             - quantity item) |}) <$> items.

Definition deductStockAfterCheckout (items : list CartItem) : M bool :=
  try_catch
    (let* stockCheck := checkStockAvailability items in
     if negb (success stockCheck) then ret false
     else
       let* products := getProducts in
       let updates := prepare_updates products items in
       batchUpdateProductStock updates)
    (fun _ => ret false).

End WithEnv.
End productService.

(** ** authService *)

Module authService.
Section WithEnv.
Variable env : Env.

Definition signOut : M unit :=
  supabase.auth_signOut env ;;; storageService.clearSession.

End WithEnv.

Section WithAuth.
Variable auth : AuthEnv.

Definition signIn (email password : string) : M SignInResult :=
  try_catch
    (let* reply := supabase.auth_signInWithPassword auth email password in
     match reply with
     | Failed error => throw error
     | Data data =>
         storageService.saveSession (data_session data) ;;; ret (SignedIn data)
     end)
    (fun error =>
       let* isConnected := supabase.NetInfo_isConnected auth in
       if negb isConnected then
         let* storedSession := storageService.getSession in
         match storedSession with
         | Some session => ret (Restored session)
         | None => throw error
         end
       else throw error).

(** [{ session }] is [Some session], [null] is [None]. *)
Definition getSession : M (option Session) :=
  try_catch
    (let* reply := supabase.auth_getSession auth in
     match fst reply with
     | Some session =>
         storageService.saveSession session ;;; ret (Some session)
     | None =>
         match snd reply with
         | Some error => throw error
         | None => storageService.getSession
         end
     end)
    (fun error =>
       let* isConnected := supabase.NetInfo_isConnected auth in
       if negb isConnected then storageService.getSession
       else throw error).

(** [{ session }], whose [session] may be [null], is [Some _]; [null] is
    [None]. *)
Definition refreshSession : M (option (option Session)) :=
  try_catch
    (let* reply := supabase.auth_refreshSession auth in
     match snd reply with
     | Some error => throw error
     | None =>
         match fst reply with
         | Some session => storageService.saveSession session
         | None => ret tt
         end ;;;
         ret (Some (fst reply))
     end)
    (fun _ =>
       let* storedSession := storageService.getSession in
       ret (Some <$> storedSession)).

End WithAuth.
End authService.

(** ** parseFloat and the cash field *)

Definition is_digit (c : ascii) : bool :=
  (48 <=? nat_of_ascii c)%nat && (nat_of_ascii c <=? 57)%nat.

Definition digit_value (c : ascii) : Z := Z.of_nat (nat_of_ascii c) - 48.

(** The longest prefix of digits, and what follows it. *)
Fixpoint span_digits (s : string) : list ascii * string :=
  match s with
  | EmptyString => ([], EmptyString)
  | String c rest =>
      if is_digit c then (c :: fst (span_digits rest), snd (span_digits rest))
      else ([], s)
  end.

Definition digits_value (ds : list ascii) : Z :=
  foldl (fun acc c => 10 * acc + digit_value c) 0 ds.

(** [parseFloat] on the longest prefix that is an unsigned decimal literal
    ([12], [12.], [12.5], [.5]); [NaN] when that prefix has no digit.  Signs,
    exponents, leading blanks and [Infinity] are left out: the cash field
    only ever holds text that [handleCashInputChange] accepted.  The value
    is the exact decimal, not its nearest double. *)
Definition parseFloat (s : string) : num :=
  let int_part := fst (span_digits s) in
  let frac_part :=
    match snd (span_digits s) with
    | String "."%char rest => fst (span_digits rest)
    | _ => []
    end in
  match int_part, frac_part with
  | [], [] => NaN
  | _, _ =>
      Fin (inject_Z (digits_value int_part)
           + Qmake (digits_value frac_part) (Z.to_pos (10 ^ Z.of_nat (length frac_part))))
  end.

(** [/^\d*\.?\d{0,2}$/.test(text)] *)
Definition cash_pattern (text : string) : bool :=
  match snd (span_digits text) with
  | EmptyString => true
  | String "."%char rest =>
      bool_decide (snd (span_digits rest) = EmptyString)
      && (length (fst (span_digits rest)) <=? 2)%nat
  | _ => false
  end.

(** ** CheckoutModal *)

(** [{ ...transaction, items: cart.map(item => ({ ...item, subtotal })) }] *)
Record Receipt : Type := mkReceipt {
  receipt_transaction : Transaction;
  receipt_items : list (CartItem * Q);
}.

(** The [useState] cells of the component. *)
Record ModalState : Type := mkModal {
  cashGiven : string;
  processing : bool;
  receipt : option Receipt;
  error : option string;
}.

(** What the component renders, as far as the sale button goes. *)
Inductive View : Type :=
  | ProcessingView
  | ReceiptView
  | CheckoutForm (completeSaleDisabled : bool).

Module CheckoutModal.
Section WithProps.
Variable env : Env.
Variable cart : list CartItem.
Variable total : Q.

Definition change (st : ModalState) : num :=
  if bool_decide (cashGiven st = "") then Fin 0
  else num_sub (parseFloat (cashGiven st)) total.

Definition isValidPayment (st : ModalState) : bool :=
  negb (bool_decide (cashGiven st = "")) && num_ge (parseFloat (cashGiven st)) total.

Definition out_of_stock_message (items : list Shortfall) : string :=
  "Some items are out of stock: " +:+
  String.concat ", "
    ((fun item => short_name item +:+ " (requested: " +:+ pretty (requested item)
                  +:+ ", available: " +:+ pretty (available item) +:+ ")") <$> items).

(** The handler leaves [processing] set; a timer clears it a second later
    ([processing_timeout]). *)
Definition handleSubmitTransaction (st : ModalState) : M ModalState :=
  try_catch
    (let* stockCheck := productService.checkStockAvailability env cart in
     if negb (success stockCheck) then
       ret {| cashGiven := cashGiven st; processing := false; receipt := receipt st;
              error := Some (out_of_stock_message (insufficientItems stockCheck)) |}
     else
       let* created := Date.now env in
       let* updated := Date.now env in
       let* reply :=
         supabase.insert_transaction env total (parseFloat (cashGiven st)) (change st)
           "completed" created updated in
       match reply with
       | Failed transactionError => throw transactionError
       | Data transaction =>
           let transactionItems :=
             (fun item : CartItem =>
                {| transaction_id := tx_id transaction; product_id := id item;
                   ti_quantity := quantity item; ti_price := price item |}) <$> cart in
           let* reply := supabase.insert_transaction_items env transactionItems in
           match reply with
           | Failed itemsError => throw itemsError
           | Data _ =>
               productService.deductStockAfterCheckout env cart ;;;
               ret {| cashGiven := cashGiven st; processing := true;
                      receipt :=
                        Some {| receipt_transaction := transaction;
                                receipt_items :=
                                  (fun item : CartItem =>
                                     (item, (price item * inject_Z (quantity item))%Q))
                                  <$> cart |};
                      error := None |}
           end
       end)
    (fun e =>
       ret {| cashGiven := cashGiven st; processing := false; receipt := receipt st;
              error := Some (if bool_decide (message e = "")
                             then "An error occurred during checkout"
                             else message e) |}).

Definition processing_timeout (st : ModalState) : ModalState :=
  {| cashGiven := cashGiven st; processing := false; receipt := receipt st;
     error := error st |}.

Definition handleCashInputChange (text : string) (st : ModalState) : ModalState :=
  if cash_pattern text then
    {| cashGiven := text; processing := processing st; receipt := receipt st;
       error := error st |}
  else st.

Definition render (st : ModalState) : View :=
  if processing st then ProcessingView
  else match receipt st with
       | Some _ => ReceiptView
       | None => CheckoutForm (negb (isValidPayment st))
       end.

(** A press on "Complete Sale": the button exists only on the checkout
    form, and a disabled button does not call [onPress]. *)
Definition press_CompleteSale (st : ModalState) : M ModalState :=
  match render st with
  | CheckoutForm false => handleSubmitTransaction st
  | _ => ret st
  end.

(** [handleDone]: the new state, and the flag it hands to [onDismiss]. *)
Definition handleDone (st : ModalState) : ModalState * bool :=
  ({| cashGiven := ""; processing := processing st; receipt := None;
      error := error st |}, true).

End WithProps.
End CheckoutModal.

(** ** OrderScreen: the cart *)

Module OrderScreen.

(** [x || d] on a number: [0] is falsy. *)
Definition or_else (x d : Z) : Z := if bool_decide (x = 0) then d else x.

(** [{ ...item, quantity: q }] *)
Definition set_quantity (item : CartItem) (q : Z) : CartItem :=
  {| item_product := item_product item; quantity := q |}.

(** The new cart [addToCart(product)] leaves, from the current one. *)
Definition addToCart (product : CartItem) (current : list CartItem)
    : list CartItem :=
  if bool_decide (stock product <= 0) then current
  else
    match find (fun item : CartItem => bool_decide (id item = id product)) current with
    | Some existing =>
        let newQuantity :=
          or_else (quantity existing) 0 + or_else (quantity product) 1 in
        if bool_decide (newQuantity > stock product) then
          (fun item : CartItem =>
             if bool_decide (id item = id product)
             then set_quantity item (stock product) else item) <$> current
        else
          (fun item : CartItem =>
             if bool_decide (id item = id product)
             then set_quantity item newQuantity else item) <$> current
    | None =>
        current ++ [set_quantity product (or_else (quantity product) 1)]
    end.

Definition updateQuantity (productId : Id) (newQuantity : Z)
    (current : list CartItem) : list CartItem :=
  if bool_decide (newQuantity <= 0) then
    filter (fun item : CartItem => id item <> productId) current
  else
    (fun item : CartItem =>
       if bool_decide (id item = productId)
       then set_quantity item newQuantity else item) <$> current.

(** [handleBarCodeScanned]: the scanned product, with quantity 1, when a
    product carries the barcode. *)
Definition handleBarCodeScanned (data : string) (products : list Product)
    : option CartItem :=
  (fun product => {| item_product := product; quantity := 1 |})
  <$> find (fun p => bool_decide (barcode p = Some data)) products.

(** The minus and plus buttons of the scanned product. *)
Definition scanned_minus (prev : CartItem) : CartItem :=
  set_quantity prev (Z.max 1 (quantity prev - 1)).

Definition scanned_plus (prev : CartItem) : CartItem :=
  set_quantity prev (quantity prev + 1).

(** The cart after [handleCheckoutComplete(success)]. *)
Definition handleCheckoutComplete (success : bool) (cart : list CartItem)
    : list CartItem :=
  if success then [] else cart.

Definition totalItems (cart : list CartItem) : Z :=
  foldl (fun sum item => sum + quantity item) 0 cart.

Definition total (cart : list CartItem) : Q :=
  foldl (fun sum (item : CartItem) =>
           (sum + price item * inject_Z (quantity item))%Q) 0%Q cart.

End OrderScreen.

(** ** TransactionsScreen: the lines of a past sale *)

(** The [useState] cells that opening a transaction touches. *)
Record TransactionsState : Type := mkTransactionsState {
  selectedTransaction : option Transaction;
  transactionItems : list (TransactionItem * option string);
  modalVisible : bool;
  loadingItems : bool;
}.

Module TransactionsScreen.
Section WithEnv.
Variable env : Env.

(** The [alert] of the [catch] is not part of the state. *)
Definition fetchTransactionItems (transactionId : Id) (st : TransactionsState)
    : M TransactionsState :=
  try_catch
    (let* reply := supabase.select_transaction_items env transactionId in
     match reply with
     | Failed error => throw error
     | Data data =>
         ret {| selectedTransaction := selectedTransaction st;
                transactionItems := data; modalVisible := true;
                loadingItems := false |}
     end)
    (fun _ =>
       ret {| selectedTransaction := selectedTransaction st;
              transactionItems := transactionItems st;
              modalVisible := modalVisible st; loadingItems := false |}).

Definition handleTransactionPress (transaction : Transaction)
    (st : TransactionsState) : M TransactionsState :=
  fetchTransactionItems (tx_id transaction)
    {| selectedTransaction := Some transaction;
       transactionItems := transactionItems st;
       modalVisible := modalVisible st; loadingItems := loadingItems st |}.

End WithEnv.
End TransactionsScreen.

(** * Statements *)

(** ** What each call does to the world, in closed form *)

(** These are shown equal to the code in [getProducts_run] and the lemmas
    after it. *)

(** The product list AsyncStorage holds. *)
Definition cached_products (w : World) : list Product :=
  match storage w !! storageService.PRODUCTS_KEY with
  | Some (SProducts ps) => ps
  | _ => []
  end.

(** The rows [getProducts] gets from the backend, when it is online and the
    query succeeds. *)
Definition fetched (env : Env) (w : World) : option (list Product) :=
  if net_online env (calls w) then
    match remote_error env (S (calls w)) with
    | None => Some (supabase.newest_first (products (remote w)))
    | Some _ => None
    end
  else None.

(** The product view a call to [getProducts] observes. *)
Definition observed (env : Env) (w : World) : list Product :=
  match fetched env w with
  | Some ps => ps
  | None => cached_products w
  end.

(** The world a call to [getProducts] leaves. *)
Definition refreshed (env : Env) (w : World) : World :=
  {| remote := remote w;
     storage :=
       match fetched env w with
       | Some ps => <[storageService.PRODUCTS_KEY := SProducts ps]> (storage w)
       | None => storage w
       end;
     calls := if net_online env (calls w) then S (S (calls w)) else S (calls w) |}.

(** The backend tables after the online loop of [batchUpdateProductStock],
    whose first request is external call [n]. *)
Fixpoint remote_after_updates (env : Env) (n : nat) (updates : list StockUpdate)
    (r : Remote) : Remote :=
  match updates with
  | [] => r
  | u :: rest =>
      remote_after_updates env (S n) rest
        match remote_error env n with
        | Some _ => r
        | None =>
            supabase.set_products r
              (supabase.set_stock_where (productId u) (newStock u) (products r))
        end
  end.

Definition stock_check_of (insufficient : list Shortfall) : StockCheck :=
  if (0 <? length insufficient)%nat then
    {| success := false;
       check_message := "Some items have insufficient stock";
       insufficientItems := insufficient |}
  else
    {| success := true;
       check_message := "Stock is available";
       insufficientItems := [] |}.

(** ** Vocabulary of the statements *)

(** The first product of a view with a given id, as [products.find] sees it. *)
Definition lookup_product (pid : Id) (view : list Product) : option Product :=
  find (fun p => bool_decide (id p = pid)) view.

(** [product?.stock || 0] *)
Definition available_stock (pid : Id) (view : list Product) : Z :=
  match lookup_product pid view with
  | Some p => stock p
  | None => 0
  end.

(** A non-empty run of decimal digits. *)
Fixpoint all_digits (s : string) : bool :=
  match s with
  | EmptyString => true
  | String c rest => is_digit c && all_digits rest
  end.

Definition is_decimal (s : string) : bool :=
  negb (bool_decide (s = "")) && all_digits s.

Definition stock_nonneg (ps : list Product) : Prop :=
  Forall (fun p => 0 <= stock p) ps.

(** Every stock value of both stores is non-negative. *)
Definition stocks_ok (w : World) : Prop :=
  stock_nonneg (products (remote w)) /\ stock_nonneg (cached_products w).

(** The worlds a sequence of sales goes through: the state after each
    [deductStockAfterCheckout], in order. *)
Fixpoint sales_trace (env : Env) (carts : list (list CartItem)) (w : World)
    : list World :=
  match carts with
  | [] => []
  | items :: rest =>
      let w' := snd (productService.deductStockAfterCheckout env items w) in
      w' :: sales_trace env rest w'
  end.

(** ** Devices and environments used in the concrete runs *)

Definition soap_draft : ProductDraft :=
  {| draft_barcode := None; draft_name := "Soap"; draft_price := 25;
     draft_stock := 10; draft_category := None |}.

(** Product 1 with a given stock. *)
Definition soap (n : Z) : Product :=
  {| id := IdNum 1; created_at := 1000; barcode := None; name := "Soap";
     price := 25; stock := n; category := None |}.

Definition always_offline : Env :=
  {| net_online := fun _ => false; remote_error := fun _ => None;
     date_now := fun n => (1700000000000 + N.of_nat n)%N;
     server_id := fun n => IdNum (Z.of_nat n);
     server_now := fun n => (1700000000000 + N.of_nat n)%N |}.

Definition always_online : Env :=
  {| net_online := fun _ => true; remote_error := fun _ => None;
     date_now := fun n => (1700000000000 + N.of_nat n)%N;
     server_id := fun n => IdNum (Z.of_nat n);
     server_now := fun n => (1700000000000 + N.of_nat n)%N |}.

(** Online, and the backend answers every request with an error. *)
Definition backend_down : Env :=
  {| net_online := fun _ => true;
     remote_error := fun _ => Some (Err "Failed to fetch");
     date_now := fun n => (1700000000000 + N.of_nat n)%N;
     server_id := fun n => IdNum (Z.of_nat n);
     server_now := fun n => (1700000000000 + N.of_nat n)%N |}.

(** A device whose backend lists [on_backend] and whose cache holds
    [in_cache]. *)
Definition world_of (on_backend in_cache : list Product) : World :=
  {| remote := {| products := on_backend; transactions := [];
                  transaction_items := [] |};
     storage := {[ storageService.PRODUCTS_KEY := SProducts in_cache ]};
     calls := 0 |}.

Definition fresh_device : World :=
  {| remote := {| products := []; transactions := []; transaction_items := [] |};
     storage := ∅;
     calls := 0 |}.

(** ** Vocabulary for the rest of the service layer *)

(** The session AsyncStorage holds. *)
Definition stored_session (w : World) : option Session :=
  match storage w !! storageService.KEYS_SESSION with
  | Some (SSession s) => Some s
  | _ => None
  end.

(** What the user does to the cart: a tap or a scan adds a product with a
    quantity, the plus and minus buttons set a line's quantity, and the
    checkout modal closes with or without a sale. *)
Inductive CartAction : Type :=
  | Add (product : CartItem)
  | SetQuantity (productId : Id) (newQuantity : Z)
  | CheckoutClosed (success : bool).

Definition cart_step (cart : list CartItem) (a : CartAction) : list CartItem :=
  match a with
  | Add product => OrderScreen.addToCart product cart
  | SetQuantity productId newQuantity =>
      OrderScreen.updateQuantity productId newQuantity cart
  | CheckoutClosed success => OrderScreen.handleCheckoutComplete success cart
  end.

(** The cart after a sequence of actions, starting empty. *)
Definition cart_after (actions : list CartAction) : list CartItem :=
  foldl cart_step [] actions.

(** An action the screen can produce: products are added with a quantity
    that is not negative (a tap adds 1, a scan at least 1). *)
Definition from_the_screen (a : CartAction) : Prop :=
  match a with
  | Add product => 0 <= quantity product
  | _ => True
  end.

(** The line of a cart for a product id, as [current.find] sees it. *)
Definition cart_line (pid : Id) (cart : list CartItem) : option CartItem :=
  find (fun item : CartItem => bool_decide (id item = pid)) cart.

(** The texts the cash field goes through as the user types, starting
    empty: each change is kept or dropped by [handleCashInputChange]. *)
Definition cash_after (inputs : list string) (st : ModalState) : ModalState :=
  foldl (fun st text => CheckoutModal.handleCashInputChange text st) st inputs.

(** ** Vocabulary for the checkout handler *)

(** The [transactions] row [handleSubmitTransaction] inserts, when the
    availability check ended at external call [n]: two clock reads
    follow, then the insert. *)
Definition sale_row (env : Env) (total : Q) (st : ModalState) (n : nat)
    : Transaction :=
  {| tx_id := server_id env (S (S n)); tx_total := total;
     tx_cash_given := parseFloat (cashGiven st);
     tx_change := CheckoutModal.change total st;
     tx_status := "completed";
     tx_created_at := date_now env n; tx_updated_at := date_now env (S n) |}.

(** The [transaction_items] rows of a cart, for a transaction. *)
Definition item_rows (transaction : Transaction) (cart : list CartItem)
    : list TransactionItem :=
  (fun item : CartItem =>
     {| transaction_id := tx_id transaction; product_id := id item;
        ti_quantity := quantity item; ti_price := price item |}) <$> cart.

(** The modal after a caught error. *)
Definition failed_checkout (st : ModalState) (e : Error) : ModalState :=
  {| cashGiven := cashGiven st; processing := false; receipt := receipt st;
     error := Some (if bool_decide (message e = "")
                    then "An error occurred during checkout" else message e) |}.

(** The modal once the sale is recorded. *)
Definition receipted (st : ModalState) (transaction : Transaction)
    (cart : list CartItem) : ModalState :=
  {| cashGiven := cashGiven st; processing := true;
     receipt :=
       Some {| receipt_transaction := transaction;
               receipt_items :=
                 (fun item : CartItem =>
                    (item, (price item * inject_Z (quantity item))%Q)) <$> cart |};
     error := None |}.

(** [0 <= a], false for [NaN]. *)
Definition num_nonneg (a : num) : Prop :=
  match a with
  | NaN => False
  | Fin q => (0 <= q)%Q
  end.

(** ** Auth backends and sessions used in the concrete runs *)

Definition ana_session : Session :=
  {| access_token := Some "token-ana"; user_email := "ana@shop.test" |}.

(** An auth backend that accepts every sign-in, on a connected device. *)
Definition auth_accepts : AuthEnv :=
  {| is_connected := fun _ => true;
     sign_in_reply := fun _ email _ =>
       Data {| data_user := email; data_session := ana_session |};
     session_reply := fun _ => (Some ana_session, None);
     refresh_reply := fun _ => (Some ana_session, None) |}.

(** An auth backend that cannot be reached, on a disconnected device. *)
Definition auth_unreachable : AuthEnv :=
  {| is_connected := fun _ => false;
     sign_in_reply := fun _ _ _ => Failed (Err "Network request failed");
     session_reply := fun _ => (None, Some (Err "Network request failed"));
     refresh_reply := fun _ => (None, Some (Err "Network request failed")) |}.

(** An auth backend that refuses every sign-in, on a connected device. *)
Definition auth_refuses : AuthEnv :=
  {| is_connected := fun _ => true;
     sign_in_reply := fun _ _ _ => Failed (Err "Invalid login credentials");
     session_reply := fun _ => (None, None);
     refresh_reply := fun _ => (None, Some (Err "Invalid Refresh Token")) |}.

(** Online, and the backend answers external call [k], and only that
    one, with an error. *)
Definition fails_at (k : nat) : Env :=
  {| net_online := fun _ => true;
     remote_error := fun n => if (n =? k)%nat then Some (Err "Failed to fetch") else None;
     date_now := fun n => (1700000000000 + N.of_nat n)%N;
     server_id := fun n => IdNum (Z.of_nat n);
     server_now := fun n => (1700000000000 + N.of_nat n)%N |}.

(** A patch that renames a product and sets its price. *)
Definition rename_patch : ProductPatch :=
  {| patch_barcode := None; patch_name := Some "Bar soap";
     patch_price := Some 30%Q; patch_stock := None; patch_category := None |}.

(** The checkout form with cash typed in, before any press. *)
Definition form_with_cash (text : string) : ModalState :=
  {| cashGiven := text; processing := false; receipt := None; error := None |}.

(** The device of [world_of [soap 10] [soap 10]] after product 1 was
    deleted online. *)
Definition world_of_after_delete : World :=
  {| remote := {| products := []; transactions := []; transaction_items := [] |};
     storage := {[ storageService.PRODUCTS_KEY := SProducts [] ]};
     calls := 2 |}.

(** A device that holds a stored session and no products. *)
Definition signed_in_device : World :=
  {| remote := {| products := []; transactions := []; transaction_items := [] |};
     storage := {[ storageService.KEYS_SESSION := SSession ana_session;
                   storageService.KEYS_AUTH_TOKEN := SText "token-ana" ]};
     calls := 0 |}.

(** * Proofs *)

Ltac run_monad :=
  unfold bind, ret, throw, try_catch, next_call, get_remote, put_remote,
    get_storage, put_storage; cbn.

Lemma storage_getProducts_run (w : World) :
  storageService.getProducts w = (Ok (cached_products w), w).
Proof.
  unfold storageService.getProducts, AsyncStorage.getItem, cached_products.
  run_monad.
  destruct (storage w !! storageService.PRODUCTS_KEY) as [[ps|s|s]|]; reflexivity.
Qed.

Lemma storage_saveProducts_run (ps : list Product) (w : World) :
  storageService.saveProducts ps w
  = (Ok tt, {| remote := remote w;
               storage := <[storageService.PRODUCTS_KEY := SProducts ps]> (storage w);
               calls := calls w |}).
Proof. reflexivity. Qed.

#[global] Arguments storageService.getProducts : simpl never.
#[global] Arguments storageService.saveProducts : simpl never.

Lemma cached_products_insert (ps : list Product) (r : Remote)
    (s : gmap string Stored) (n : nat) :
  cached_products
    {| remote := r;
       storage := <[storageService.PRODUCTS_KEY := SProducts ps]> s;
       calls := n |} = ps.
Proof. unfold cached_products. cbn. by rewrite lookup_insert_eq. Qed.

Lemma getProducts_run (env : Env) (w : World) :
  productService.getProducts env w = (Ok (observed env w), refreshed env w).
Proof.
  unfold productService.getProducts, productService.checkIsOnline,
    supabase.select_products, supabase.request, observed, refreshed, fetched.
  run_monad.
  destruct (net_online env (calls w)); cbn.
  - destruct (remote_error env (S (calls w))); cbn.
    + rewrite storage_getProducts_run. reflexivity.
    + rewrite storage_saveProducts_run. reflexivity.
  - rewrite storage_getProducts_run. reflexivity.
Qed.

#[global] Arguments productService.getProducts : simpl never.

Lemma refreshed_remote (env : Env) (w : World) :
  remote (refreshed env w) = remote w.
Proof. reflexivity. Qed.

(** After [getProducts], the view it returned is what the cache holds. *)
Lemma cached_products_refreshed (env : Env) (w : World) :
  cached_products (refreshed env w) = observed env w.
Proof.
  unfold refreshed, observed.
  destruct (fetched env w) as [ps|].
  - apply cached_products_insert.
  - reflexivity.
Qed.

Lemma checkStockAvailability_run (env : Env) (items : list CartItem) (w : World) :
  productService.checkStockAvailability env items w
  = (Ok (stock_check_of (productService.collect_insufficient (observed env w) items)),
     refreshed env w).
Proof.
  unfold productService.checkStockAvailability, stock_check_of.
  run_monad. rewrite getProducts_run.
  destruct (productService.collect_insufficient _ _); reflexivity.
Qed.

#[global] Arguments productService.checkStockAvailability : simpl never.

Lemma update_loop_run (env : Env) (updates : list StockUpdate) (w : World) :
  for_of updates
    (fun update =>
       supabase.update_stock env (productId update) (newStock update) ;;; ret tt) w
  = (Ok tt,
     {| remote := remote_after_updates env (calls w) updates (remote w);
        storage := storage w;
        calls := length updates + calls w |}).
Proof.
  revert w. induction updates as [|u rest IH]; intros w.
  - destruct w; reflexivity.
  - cbn [for_of]. unfold bind at 1.
    unfold supabase.update_stock, supabase.request. run_monad.
    destruct (remote_error env (calls w)); cbn;
      rewrite IH; cbn; rewrite Nat.add_succ_r; reflexivity.
Qed.

Lemma batchUpdateProductStock_run (env : Env) (updates : list StockUpdate) (w : World) :
  productService.batchUpdateProductStock env updates w
  = (Ok true,
     {| remote :=
          if net_online env (calls w)
          then remote_after_updates env (S (calls w)) updates (remote w)
          else remote w;
        storage :=
          <[storageService.PRODUCTS_KEY :=
              SProducts (productService.apply_updates updates (cached_products w))]>
            (storage w);
        calls :=
          if net_online env (calls w) then length updates + S (calls w)
          else S (calls w) |}).
Proof.
  unfold productService.batchUpdateProductStock, productService.checkIsOnline.
  unfold try_catch, bind at 1 2 3, next_call, ret at 1. cbn.
  destruct (net_online env (calls w)).
  - rewrite update_loop_run. cbn.
    unfold bind. rewrite storage_getProducts_run, storage_saveProducts_run.
    reflexivity.
  - unfold ret at 1. unfold bind.
    rewrite storage_getProducts_run, storage_saveProducts_run. reflexivity.
Qed.

#[global] Arguments productService.batchUpdateProductStock : simpl never.

Lemma deductStockAfterCheckout_run (env : Env) (items : list CartItem) (w : World) :
  productService.deductStockAfterCheckout env items w
  = if success (stock_check_of
                  (productService.collect_insufficient (observed env w) items))
    then
      productService.batchUpdateProductStock env
        (productService.prepare_updates (observed env (refreshed env w)) items)
        (refreshed env (refreshed env w))
    else (Ok false, refreshed env w).
Proof.
  unfold productService.deductStockAfterCheckout.
  unfold try_catch, bind at 1. rewrite checkStockAvailability_run.
  destruct (success _); cbn [negb].
  - unfold bind. rewrite getProducts_run, batchUpdateProductStock_run. reflexivity.
  - reflexivity.
Qed.

#[global] Arguments productService.deductStockAfterCheckout : simpl never.

Lemma success_stock_check_of (l : list Shortfall) :
  success (stock_check_of l) = true <-> l = [].
Proof. destruct l; cbn; split; congruence. Qed.

Lemma insufficientItems_stock_check_of (l : list Shortfall) :
  insufficientItems (stock_check_of l) = l.
Proof. destruct l; reflexivity. Qed.

(** ** Stock never goes negative *)

Lemma stock_nonneg_newest_first (ps : list Product) :
  stock_nonneg ps -> stock_nonneg (supabase.newest_first ps).
Proof.
  unfold stock_nonneg, supabase.newest_first. intros H.
  by rewrite merge_sort_Permutation.
Qed.

Lemma stocks_ok_observed (env : Env) (w : World) :
  stocks_ok w -> stock_nonneg (observed env w).
Proof.
  intros [Hr Hc]. unfold observed, fetched.
  destruct (net_online env (calls w)); [|done].
  destruct (remote_error env (S (calls w))); [done|].
  by apply stock_nonneg_newest_first.
Qed.

Lemma stocks_ok_refreshed (env : Env) (w : World) :
  stocks_ok w -> stocks_ok (refreshed env w).
Proof.
  intros H. split.
  - apply H.
  - rewrite cached_products_refreshed. by apply stocks_ok_observed.
Qed.

Lemma prepare_updates_nonneg (view : list Product) (items : list CartItem) :
  Forall (fun u => 0 <= newStock u) (productService.prepare_updates view items).
Proof.
  unfold productService.prepare_updates. apply Forall_fmap, Forall_true.
  intros item. cbn. apply Z.le_max_l.
Qed.

Lemma apply_updates_nonneg (updates : list StockUpdate) (ps : list Product) :
  Forall (fun u => 0 <= newStock u) updates ->
  stock_nonneg ps -> stock_nonneg (productService.apply_updates updates ps).
Proof.
  intros Hu Hps. unfold stock_nonneg, productService.apply_updates.
  apply Forall_fmap. eapply Forall_impl; [exact Hps|].
  intros p Hp. cbn.
  destruct (find _ updates) as [u|] eqn:Hfind; [|exact Hp].
  apply find_some in Hfind as [Hin _].
  rewrite Forall_forall in Hu. apply Hu. by apply list_elem_of_In.
Qed.

Lemma set_stock_where_nonneg (pid : Id) (v : Z) (ps : list Product) :
  0 <= v -> stock_nonneg ps -> stock_nonneg (supabase.set_stock_where pid v ps).
Proof.
  intros Hv Hps. unfold stock_nonneg, supabase.set_stock_where.
  apply Forall_fmap. eapply Forall_impl; [exact Hps|].
  intros p Hp. cbn. by destruct (bool_decide _).
Qed.

Lemma remote_after_updates_nonneg (env : Env) (updates : list StockUpdate) :
  Forall (fun u => 0 <= newStock u) updates ->
  forall n r, stock_nonneg (products r) ->
  stock_nonneg (products (remote_after_updates env n updates r)).
Proof.
  induction 1 as [|u rest Hu _ IH]; intros n r Hr; [exact Hr|].
  cbn [remote_after_updates]. apply IH.
  destruct (remote_error env n); [exact Hr|].
  cbn. by apply set_stock_where_nonneg.
Qed.

Lemma batchUpdateProductStock_stocks_ok (env : Env) (updates : list StockUpdate)
    (w : World) :
  Forall (fun u => 0 <= newStock u) updates ->
  stocks_ok w ->
  stocks_ok (snd (productService.batchUpdateProductStock env updates w)).
Proof.
  intros Hu [Hr Hc]. rewrite batchUpdateProductStock_run. cbn [snd]. split.
  - cbn [remote]. destruct (net_online env (calls w)); [|exact Hr].
    by apply remote_after_updates_nonneg.
  - rewrite cached_products_insert. by apply apply_updates_nonneg.
Qed.

Lemma deductStockAfterCheckout_stocks_ok (env : Env) (items : list CartItem)
    (w : World) :
  stocks_ok w ->
  stocks_ok (snd (productService.deductStockAfterCheckout env items w)).
Proof.
  intros H. rewrite deductStockAfterCheckout_run.
  destruct (success _).
  - apply batchUpdateProductStock_stocks_ok.
    + apply prepare_updates_nonneg.
    + by do 2 apply stocks_ok_refreshed.
  - by apply stocks_ok_refreshed.
Qed.

(** C1.  Starting from a state in which every product's stock, on the
    backend and in the cache, is non-negative, after each call of any
    sequence of [deductStockAfterCheckout] calls, whatever the connectivity
    and whichever backend requests fail, every stock in the cached product
    list is still [>= 0]; and every update a call prepares has a
    non-negative new stock, being [max 0 (current - quantity)]. *)
Theorem deduct_sequence_keeps_stock_nonneg (env : Env)
    (carts : list (list CartItem)) (w : World) :
  stocks_ok w ->
  Forall (fun w' => stock_nonneg (cached_products w')) (sales_trace env carts w)
  /\ forall view items,
       Forall (fun u => 0 <= newStock u)
         (productService.prepare_updates view items).
Proof.
  intros H. split; [|intros; apply prepare_updates_nonneg].
  revert w H. induction carts as [|items rest IH]; intros w H; cbn.
  - constructor.
  - pose proof (deductStockAfterCheckout_stocks_ok env items w H) as H'.
    constructor; [apply H'|by apply IH].
Qed.

(** ** Availability check *)

Lemma is_insufficient_iff (view : list Product) (item : CartItem) :
  productService.is_insufficient view item = true
  <-> lookup_product (id item) view = None
      \/ exists p, lookup_product (id item) view = Some p /\ stock p < quantity item.
Proof.
  unfold productService.is_insufficient, lookup_product.
  destruct (find _ view) as [p|].
  - rewrite Z.ltb_lt. split.
    + intros H. right. by exists p.
    + intros [?|(p' & [= <-] & H)]; done.
  - split; [by left|done].
Qed.

Lemma elem_of_collect_insufficient (view : list Product) (items : list CartItem)
    (s : Shortfall) :
  s ∈ productService.collect_insufficient view items
  <-> exists item : CartItem,
        item ∈ items
        /\ productService.is_insufficient view item = true
        /\ s = productService.insufficient_entry view item.
Proof.
  induction items as [|item rest IH]; cbn [productService.collect_insufficient].
  - split; [by intros ?%elem_of_nil|by intros (? & ?%elem_of_nil & _)].
  - destruct (productService.is_insufficient view item) eqn:Hitem.
    + rewrite elem_of_cons, IH. split.
      * intros [->|(item' & Hin & H)].
        -- exists item. split; [by left|done].
        -- exists item'. split; [by right|done].
      * intros (item' & [->|Hin]%elem_of_cons & H).
        -- left. apply H.
        -- right. by exists item'.
    + rewrite IH. split.
      * intros (item' & Hin & H). exists item'. split; [by right|done].
      * intros (item' & [->|Hin]%elem_of_cons & H1 & H2).
        -- congruence.
        -- by exists item'.
Qed.

(** For a line that asks for a positive quantity, "missing or short" is
    the same as "asks for more than is available", a missing product
    having [0] available. *)
Lemma is_insufficient_positive (view : list Product) (item : CartItem) :
  0 < quantity item ->
  productService.is_insufficient view item = true
  <-> available_stock (id item) view < quantity item.
Proof.
  intros Hq. rewrite is_insufficient_iff. unfold available_stock.
  destruct (lookup_product _ view) as [p|].
  - split.
    + intros [?|(p' & [= <-] & H)]; done.
    + intros H. right. by exists p.
  - split; [done|by left].
Qed.

(** The test as the code writes it, for any quantities:
    [checkStockAvailability] always returns, and it records a shortfall
    for product [pid] with requested quantity [q] exactly when some line
    asks [q] of [pid] and, in the product view that call observed, [pid]
    is missing or its stock is below [q]; the entry then carries the
    stock observed ([0] for a missing product) as [available]. *)
Lemma checkStockAvailability_shortfall_cases (env : Env) (items : list CartItem)
    (w : World) :
  exists view check w',
    productService.getProducts env w = (Ok view, w')
    /\ productService.checkStockAvailability env items w = (Ok check, w')
    /\ (success check = true <-> insufficientItems check = [])
    /\ forall pid q,
         (exists s, s ∈ insufficientItems check
                    /\ short_id s = pid /\ requested s = q
                    /\ available s = available_stock pid view)
         <-> (exists item : CartItem,
                item ∈ items /\ id item = pid /\ quantity item = q
                /\ (lookup_product pid view = None
                    \/ exists p, lookup_product pid view = Some p /\ stock p < q)).
Proof.
  eexists (observed env w), _, (refreshed env w).
  split; [apply getProducts_run|]. split; [apply checkStockAvailability_run|].
  rewrite insufficientItems_stock_check_of. split.
  { apply success_stock_check_of. }
  intros pid q. split.
  - intros (s & Hs & <- & <- & _).
    apply elem_of_collect_insufficient in Hs as (item & Hin & Hshort & ->).
    exists item. cbn. repeat split; [done|]. by apply is_insufficient_iff.
  - intros (item & Hin & <- & <- & H).
    exists (productService.insufficient_entry (observed env w) item).
    repeat split.
    apply elem_of_collect_insufficient. exists item. repeat split; [done|].
    by apply is_insufficient_iff.
Qed.

(** C2.  For every sequence of cart lines, each asking a positive
    quantity as cart lines do, and every product view observed by the
    call, [checkStockAvailability] returns, and it records a shortfall
    for product [pid] with requested quantity [q] if and only if some
    line asks [q] of [pid] and [q] exceeds the stock available for [pid]
    in that view, a missing product counting as [0] available; the entry
    carries that available stock. *)
Theorem checkStockAvailability_shortfall_iff (env : Env) (items : list CartItem)
    (w : World) :
  Forall (fun item => 0 < quantity item) items ->
  exists view check w',
    productService.getProducts env w = (Ok view, w')
    /\ productService.checkStockAvailability env items w = (Ok check, w')
    /\ (success check = true <-> insufficientItems check = [])
    /\ forall pid q,
         (exists s, s ∈ insufficientItems check
                    /\ short_id s = pid /\ requested s = q
                    /\ available s = available_stock pid view)
         <-> (exists item : CartItem,
                item ∈ items /\ id item = pid /\ quantity item = q
                /\ q > available_stock pid view).
Proof.
  intros Hpos. rewrite Forall_forall in Hpos.
  eexists (observed env w), _, (refreshed env w).
  split; [apply getProducts_run|]. split; [apply checkStockAvailability_run|].
  rewrite insufficientItems_stock_check_of. split.
  { apply success_stock_check_of. }
  intros pid q. split.
  - intros (s & Hs & <- & <- & _).
    apply elem_of_collect_insufficient in Hs as (item & Hin & Hshort & ->).
    exists item. cbn. repeat split; [done|].
    apply is_insufficient_positive in Hshort; [lia|by apply Hpos].
  - intros (item & Hin & <- & <- & Hmore).
    exists (productService.insufficient_entry (observed env w) item).
    repeat split.
    apply elem_of_collect_insufficient. exists item. repeat split; [done|].
    apply is_insufficient_positive; [by apply Hpos|lia].
Qed.

(** ** A failed re-check deducts nothing *)

Lemma refreshed_storage (env : Env) (w : World) :
  storage (refreshed env w) = storage w
  \/ (net_online env (calls w) = true
      /\ storage (refreshed env w)
         = <[storageService.PRODUCTS_KEY :=
               SProducts (supabase.newest_first (products (remote w)))]> (storage w)).
Proof.
  unfold refreshed, fetched. cbn.
  destruct (net_online env (calls w)); [|by left].
  destruct (remote_error env (S (calls w))); [by left|by right].
Qed.

(** C3, as the code has it.  When the availability re-check inside
    [deductStockAfterCheckout] fails, the call returns [false], the backend
    is left as it was, and no deduction is written anywhere: the call
    leaves the world exactly as the [getProducts] of the re-check leaves
    it, that is, the cache is either untouched or, when online with a
    successful fetch, overwritten with the rows just fetched. *)
Theorem deduct_failed_check_writes_no_deduction (env : Env)
    (items : list CartItem) (w : World) (check : StockCheck) (w1 : World) :
  productService.checkStockAvailability env items w = (Ok check, w1) ->
  success check = false ->
  productService.deductStockAfterCheckout env items w = (Ok false, w1)
  /\ snd (productService.getProducts env w) = w1
  /\ remote w1 = remote w
  /\ (storage w1 = storage w
      \/ (net_online env (calls w) = true
          /\ storage w1
             = <[storageService.PRODUCTS_KEY :=
                   SProducts (supabase.newest_first (products (remote w)))]>
                 (storage w))).
Proof.
  rewrite checkStockAvailability_run. intros [= <- <-] Hfail.
  rewrite deductStockAfterCheckout_run, Hfail, getProducts_run.
  repeat split. apply refreshed_storage.
Qed.

(** ** Checkout stops at a shortfall *)

(** C5, as the code has it.  When [checkStockAvailability] over the cart
    reports a shortfall, [handleSubmitTransaction] stops there: it shows
    the per-item message, no [transactions] row and no
    [transaction_items] row is inserted, no backend stock changes, and
    no deduction is written to the cache, which is left as the
    [getProducts] of the check leaves it (untouched, or overwritten with
    the rows just fetched). *)
Theorem checkout_shortfall_persists_nothing (env : Env) (cart : list CartItem)
    (total : Q) (st : ModalState) (w : World) (check : StockCheck) (w1 : World) :
  productService.checkStockAvailability env cart w = (Ok check, w1) ->
  success check = false ->
  CheckoutModal.handleSubmitTransaction env cart total st w
  = (Ok {| cashGiven := cashGiven st; processing := false; receipt := receipt st;
           error := Some (CheckoutModal.out_of_stock_message
                            (insufficientItems check)) |}, w1)
  /\ transactions (remote w1) = transactions (remote w)
  /\ transaction_items (remote w1) = transaction_items (remote w)
  /\ products (remote w1) = products (remote w)
  /\ snd (productService.getProducts env w) = w1
  /\ (cached_products w1 = cached_products w
      \/ (net_online env (calls w) = true
          /\ cached_products w1 = supabase.newest_first (products (remote w)))).
Proof.
  intros Hcheck Hfail.
  unfold CheckoutModal.handleSubmitTransaction, try_catch, bind at 1.
  rewrite Hcheck, Hfail. cbn [negb].
  rewrite checkStockAvailability_run in Hcheck. injection Hcheck as <- <-.
  rewrite getProducts_run.
  repeat split.
  rewrite cached_products_refreshed. unfold observed, fetched.
  destruct (net_online env (calls w)); [|by left].
  destruct (remote_error env (S (calls w))); [by left|by right].
Qed.

(** ** Sign-out *)

(** C6.  [signOut] always completes, and afterwards AsyncStorage holds
    neither the session nor the auth token, whatever the backend replied
    to the sign-out request. *)
Theorem signOut_clears_session (env : Env) (w : World) :
  exists w',
    authService.signOut env w = (Ok tt, w')
    /\ storage w' !! storageService.KEYS_SESSION = None
    /\ storage w' !! storageService.KEYS_AUTH_TOKEN = None.
Proof.
  unfold authService.signOut, supabase.auth_signOut, supabase.request,
    storageService.clearSession, AsyncStorage.multiRemove.
  run_monad.
  destruct (remote_error env (calls w)); cbn;
    (eexists; split; [reflexivity|]); cbn;
    split; by simplify_map_eq.
Qed.

(** ** The payment gate *)

(** C7.  When the cash field is empty, or holds an amount below the
    total, a press on "Complete Sale" does nothing at all: the handler
    is not run, so no [transactions] row is created and nothing else
    changes either. *)
Theorem invalid_payment_never_persists (env : Env) (cart : list CartItem)
    (total : Q) (st : ModalState) (w : World) :
  cashGiven st = ""
  \/ (exists cash, parseFloat (cashGiven st) = Fin cash /\ (cash < total)%Q) ->
  CheckoutModal.isValidPayment total st = false
  /\ CheckoutModal.press_CompleteSale env cart total st w = (Ok st, w)
  /\ transactions (remote (snd (CheckoutModal.press_CompleteSale env cart total st w)))
     = transactions (remote w).
Proof.
  intros H.
  assert (Hinvalid : CheckoutModal.isValidPayment total st = false).
  { unfold CheckoutModal.isValidPayment.
    destruct H as [->|(cash & -> & Hlt)]; [reflexivity|].
    apply andb_false_iff. right. cbn.
    destruct (Qle_bool total cash) eqn:Hle; [|reflexivity].
    apply Qle_bool_iff in Hle. by apply Qle_not_lt in Hle. }
  assert (Hpress : CheckoutModal.press_CompleteSale env cart total st w = (Ok st, w)).
  { unfold CheckoutModal.press_CompleteSale, CheckoutModal.render.
    rewrite Hinvalid. destruct (processing st), (receipt st); reflexivity. }
  rewrite Hpress. done.
Qed.

(** ** Batch update *)

Lemma apply_updates_idempotent (updates : list StockUpdate) (ps : list Product) :
  productService.apply_updates updates (productService.apply_updates updates ps)
  = productService.apply_updates updates ps.
Proof.
  unfold productService.apply_updates. rewrite <- list_fmap_compose.
  apply list_fmap_ext. intros _ p _. cbn.
  destruct (find (fun u => bool_decide (productId u = id p)) updates)
    as [u|] eqn:Hfind; cbn; rewrite Hfind; reflexivity.
Qed.

(** C8.  Calling [batchUpdateProductStock] a second time with the same
    updates leaves the cached product list, and so every cached stock,
    as the first call left it, whatever the connectivity and the backend
    replies during either call. *)
Theorem batchUpdateProductStock_idempotent (env1 env2 : Env)
    (updates : list StockUpdate) (w : World) :
  cached_products
    (snd (productService.batchUpdateProductStock env2 updates
            (snd (productService.batchUpdateProductStock env1 updates w))))
  = cached_products (snd (productService.batchUpdateProductStock env1 updates w)).
Proof.
  rewrite !batchUpdateProductStock_run. cbn [snd].
  rewrite !cached_products_insert. apply apply_updates_idempotent.
Qed.

(** ** Offline creation *)

Lemma is_digit_pretty_N_char (x : N) : is_digit (pretty_N_char x) = true.
Proof. unfold pretty_N_char. repeat case_match; reflexivity. Qed.

Lemma is_decimal_pretty_N_go (x : N) (s : string) :
  is_decimal s = true -> is_decimal (pretty_N_go x s) = true.
Proof.
  revert s. induction (N.lt_wf_0 x) as [x _ IH]. intros s Hs.
  destruct (decide (x = 0)%N) as [->|Hx].
  - by rewrite pretty_N_go_0.
  - rewrite pretty_N_go_step by lia. apply IH.
    + apply N.div_lt; lia.
    + unfold is_decimal in *. apply andb_true_iff in Hs as [_ Hs].
      cbn. by rewrite is_digit_pretty_N_char, Hs.
Qed.

Lemma is_decimal_pretty (n : N) : is_decimal (pretty n) = true.
Proof.
  unfold pretty, pretty_N. case_decide as Hn; [reflexivity|].
  rewrite pretty_N_go_step by lia. apply is_decimal_pretty_N_go.
  unfold is_decimal. cbn. by rewrite is_digit_pretty_N_char.
Qed.

(** C9.  Offline, [createProduct] returns the draft extended with the id
    [temp_<clock reading in decimal>] and the clock reading of its
    creation, puts it at the head of the cached list, and a [getProducts]
    made right after, still offline, returns the list with it first. *)
Theorem createProduct_offline (env : Env) (draft : ProductDraft) (w : World) :
  net_online env (calls w) = false ->
  exists newProduct w',
    productService.createProduct env draft w = (Ok newProduct, w')
    /\ newProduct
       = extend_draft draft
           (IdStr ("temp_" +:+ pretty (date_now env (S (calls w)))))
           (date_now env (S (S (calls w))))
    /\ is_decimal (pretty (date_now env (S (calls w)))) = true
    /\ draft_of newProduct = draft
    /\ cached_products w' = newProduct :: cached_products w
    /\ (net_online env (calls w') = false ->
        exists w'', productService.getProducts env w'
                    = (Ok (newProduct :: cached_products w), w'')).
Proof.
  intros Hoff.
  unfold productService.createProduct, productService.checkIsOnline, Date.now.
  unfold try_catch, bind at 1 2, next_call, ret at 1. cbn. rewrite Hoff.
  unfold bind at 1. rewrite storage_getProducts_run.
  unfold bind, ret, next_call. cbn. rewrite storage_saveProducts_run. cbn.
  eexists _, _. split; [reflexivity|]. split; [reflexivity|].
  split; [apply is_decimal_pretty|].
  split; [by destruct draft|]. split; [apply cached_products_insert|].
  intros Hoff'. eexists. rewrite getProducts_run. f_equal. f_equal.
  unfold observed, fetched. rewrite Hoff'. apply cached_products_insert.
Qed.

(** ** Duplicate cart lines *)

Lemma find_fmap_update (view : list Product) (items : list CartItem) (pid : Id) :
  find (fun u => bool_decide (productId u = pid))
    (productService.prepare_updates view items)
  = (fun item : CartItem =>
       {| productId := pid;
          newStock := Z.max 0 (available_stock pid view - quantity item) |})
    <$> find (fun item : CartItem => bool_decide (id item = pid)) items.
Proof.
  unfold productService.prepare_updates.
  induction items as [|item rest IH]; [reflexivity|].
  cbn. case_bool_decide as Hid.
  - cbn. unfold available_stock, lookup_product. by rewrite Hid.
  - apply IH.
Qed.

(** C10, as the code has it.  When the sale goes through, every cached
    product named by the cart ends with the stock of the snapshot minus
    the quantity of the first cart line that names it, floored at [0];
    later lines for the same product leave no trace in the cache, and
    products the cart does not name are unchanged. *)
Theorem deduct_duplicate_lines_first_wins_in_cache (env : Env)
    (items : list CartItem) (w : World) (check : StockCheck) (w1 : World)
    (snapshot : list Product) (w2 : World) :
  productService.checkStockAvailability env items w = (Ok check, w1) ->
  success check = true ->
  productService.getProducts env w1 = (Ok snapshot, w2) ->
  fst (productService.deductStockAfterCheckout env items w) = Ok true
  /\ cached_products (snd (productService.deductStockAfterCheckout env items w))
     = (fun p =>
          match find (fun item : CartItem => bool_decide (id item = id p)) items with
          | Some line =>
              with_stock p (Z.max 0 (available_stock (id p) snapshot - quantity line))
          | None => p
          end) <$> snapshot.
Proof.
  rewrite checkStockAvailability_run. intros [= <- <-] Hok.
  rewrite getProducts_run. intros [= <- <-].
  rewrite deductStockAfterCheckout_run, Hok, batchUpdateProductStock_run.
  split; [reflexivity|]. cbn [snd].
  rewrite cached_products_insert, cached_products_refreshed.
  unfold productService.apply_updates.
  apply list_fmap_ext. intros _ p _. cbn.
  rewrite find_fmap_update. by destruct (find _ items).
Qed.

(** ** Single stock update *)

(** C4, as the code has it.  Online, when the backend's reply to the row
    update is an error, [updateProductStock] returns [false] and writes
    nothing: AsyncStorage and the backend tables are as before. *)
Theorem updateProductStock_remote_failure (env : Env) (pid : Id) (v : Z)
    (w : World) (failure : Error) (w2 : World) :
  net_online env (calls w) = true ->
  supabase.update_stock_single env pid v
    (snd (productService.checkIsOnline env w)) = (Ok (Failed failure), w2) ->
  fst (productService.updateProductStock env pid v w) = Ok false
  /\ storage (snd (productService.updateProductStock env pid v w)) = storage w
  /\ remote (snd (productService.updateProductStock env pid v w)) = remote w.
Proof.
  intros Hon.
  unfold productService.updateProductStock, productService.checkIsOnline,
    supabase.update_stock_single, supabase.request.
  run_monad. rewrite Hon. cbn.
  destruct (remote_error env (S (calls w))); cbn; [done|].
  destruct (find _ (products (remote w))); cbn; [|done].
  intros [=].
Qed.

(** ** Concrete runs *)

(** Scenario A of the specification: one line of 2 at 50, cash 120.  The
    sale is recorded with total 100 and change 20, one item row, and the
    stock of product 1 goes from 10 to 8 on the backend and in the cache. *)
Example scenario_A :
  let item :=
    {| id := IdNum 1; created_at := 1000; barcode := None; name := "Item";
       price := 50; stock := 10; category := None |} in
  let end_state :=
    snd (CheckoutModal.handleSubmitTransaction always_online
           [{| item_product := item; quantity := 2 |}] 100
           {| cashGiven := "120"; processing := false; receipt := None;
              error := None |}
           (world_of [item] [item])) in
  (fun t => (tx_total t, tx_cash_given t, tx_change t, tx_status t))
    <$> transactions (remote end_state)
  = [(100%Q, Fin 120, Fin 20, "completed")]
  /\ (fun i => (product_id i, ti_quantity i)) <$> transaction_items (remote end_state)
     = [(IdNum 1, 2)]
  /\ stock <$> products (remote end_state) = [8]
  /\ stock <$> cached_products end_state = [8].
Proof. repeat split; vm_compute; reflexivity. Qed.

Lemma deduct_sequence_keeps_stock_nonneg_witness :
  stocks_ok (world_of [soap 10] [soap 10])
  /\ Forall (fun w' => stock_nonneg (cached_products w'))
       (sales_trace always_online
          [[{| item_product := soap 10; quantity := 4 |}];
           [{| item_product := soap 6; quantity := 6 |}]]
          (world_of [soap 10] [soap 10])).
Proof.
  assert (H : stocks_ok (world_of [soap 10] [soap 10])).
  { split; vm_compute; repeat constructor; discriminate. }
  split; [exact H|].
  apply (deduct_sequence_keeps_stock_nonneg always_online _ _ H).
Defined.

(** Why the quantities of C2 are positive: the code tests [!product]
    before it compares, so a line asking [0] of a product that is not in
    the view would be recorded too, although [0] does not exceed the [0]
    available.  Cart lines ask at least 1, so the check never receives
    such a line. *)
Example checkStockAvailability_missing_product_zero_quantity :
  fst (productService.checkStockAvailability always_offline
         [{| item_product := soap 10; quantity := 0 |}] fresh_device)
  = Ok {| success := false;
          check_message := "Some items have insufficient stock";
          insufficientItems :=
            [{| short_id := IdNum 1; short_name := "Product #1";
                requested := 0; available := 0 |}] |}
  /\ available_stock (IdNum 1) (observed always_offline fresh_device) = 0
  /\ ~ (quantity {| item_product := soap 10; quantity := 0 |}
        > available_stock (IdNum 1) (observed always_offline fresh_device)).
Proof. split; [|split]; vm_compute; [reflexivity|reflexivity|intros [=]]. Qed.

Lemma checkStockAvailability_shortfall_iff_witness :
  Forall (fun item => 0 < quantity item)
    [{| item_product := soap 10; quantity := 5 |}]
  /\ exists view check w',
       productService.checkStockAvailability always_offline
         [{| item_product := soap 10; quantity := 5 |}]
         (world_of [soap 3] [soap 3]) = (Ok check, w')
       /\ available_stock (IdNum 1) view = 3
       /\ exists s, s ∈ insufficientItems check
                    /\ short_id s = IdNum 1 /\ requested s = 5
                    /\ available s = available_stock (IdNum 1) view.
Proof.
  assert (Hpos : Forall (fun item => 0 < quantity item)
                   [{| item_product := soap 10; quantity := 5 |}]).
  { repeat constructor. }
  split; [exact Hpos|].
  destruct (checkStockAvailability_shortfall_iff always_offline
              [{| item_product := soap 10; quantity := 5 |}]
              (world_of [soap 3] [soap 3]) Hpos)
    as (view & check & w' & Hview & Hrun & _ & Hiff).
  exists view, check, w'. split; [exact Hrun|].
  assert (Hstock : available_stock (IdNum 1) view = 3).
  { rewrite getProducts_run in Hview. injection Hview as <- _. reflexivity. }
  split; [exact Hstock|].
  apply Hiff. exists {| item_product := soap 10; quantity := 5 |}.
  split; [by left|]. split; [reflexivity|]. split; [reflexivity|].
  rewrite Hstock. reflexivity.
Defined.

(** A cache that disagrees with the backend arises from the client's own
    offline writes: setting the stock of product 1 to 10 while offline
    leaves the backend row at 3. *)
Example stale_cache_after_offline_edit :
  fst (productService.updateProductStock always_offline (IdNum 1) 10
         (world_of [soap 3] [soap 3])) = Ok true
  /\ remote (snd (productService.updateProductStock always_offline (IdNum 1) 10
                    (world_of [soap 3] [soap 3])))
     = remote (world_of [soap 3] [soap 10])
  /\ storage (snd (productService.updateProductStock always_offline (IdNum 1) 10
                     (world_of [soap 3] [soap 3])))
     = storage (world_of [soap 3] [soap 10]).
Proof. repeat split; vm_compute; reflexivity. Qed.

(** C3, the claim as stated fails: online with a stale cache, the failed
    re-check itself rewrites the cached list from the backend, so the
    cached stock of product 1 goes from 10 to 3 although nothing is
    deducted. *)
Lemma deduct_failed_check_rewrites_stale_cache :
  fst (productService.checkStockAvailability always_online
         [{| item_product := soap 10; quantity := 5 |}]
         (world_of [soap 3] [soap 10]))
  = Ok {| success := false;
          check_message := "Some items have insufficient stock";
          insufficientItems :=
            [{| short_id := IdNum 1; short_name := "Soap";
                requested := 5; available := 3 |}] |}
  /\ fst (productService.deductStockAfterCheckout always_online
            [{| item_product := soap 10; quantity := 5 |}]
            (world_of [soap 3] [soap 10])) = Ok false
  /\ stock <$> cached_products (world_of [soap 3] [soap 10]) = [10]
  /\ stock <$> cached_products
                 (snd (productService.deductStockAfterCheckout always_online
                         [{| item_product := soap 10; quantity := 5 |}]
                         (world_of [soap 3] [soap 10]))) = [3].
Proof. repeat split; vm_compute; reflexivity. Qed.

Lemma deduct_failed_check_writes_no_deduction_witness :
  success (stock_check_of
             (productService.collect_insufficient
                (observed always_offline (world_of [soap 3] [soap 3]))
                [{| item_product := soap 3; quantity := 5 |}])) = false
  /\ productService.deductStockAfterCheckout always_offline
       [{| item_product := soap 3; quantity := 5 |}] (world_of [soap 3] [soap 3])
     = (Ok false, refreshed always_offline (world_of [soap 3] [soap 3])).
Proof.
  split; [vm_compute; reflexivity|].
  refine (proj1 (deduct_failed_check_writes_no_deduction always_offline
                   [{| item_product := soap 3; quantity := 5 |}]
                   (world_of [soap 3] [soap 3]) _ _ _ _)).
  - apply checkStockAvailability_run.
  - vm_compute; reflexivity.
Defined.

(** C5, the claim as stated fails on its last part: the blocked checkout
    inserts nothing, but online with a stale cache its availability check
    rewrites the cached list, and the cached stock of product 1 goes from
    10 to 3. *)
Lemma checkout_shortfall_rewrites_stale_cache :
  CheckoutModal.handleSubmitTransaction always_online
    [{| item_product := soap 10; quantity := 5 |}] 125
    {| cashGiven := "200"; processing := false; receipt := None; error := None |}
    (world_of [soap 3] [soap 10])
  = (Ok {| cashGiven := "200"; processing := false; receipt := None;
           error := Some "Some items are out of stock: Soap (requested: 5, available: 3)" |},
     {| remote := {| products := [soap 3]; transactions := [];
                     transaction_items := [] |};
        storage := {[ storageService.PRODUCTS_KEY := SProducts [soap 3] ]};
        calls := 2 |})
  /\ stock <$> cached_products (world_of [soap 3] [soap 10]) = [10]
  /\ stock <$> cached_products
                 (snd (CheckoutModal.handleSubmitTransaction always_online
                         [{| item_product := soap 10; quantity := 5 |}] 125
                         {| cashGiven := "200"; processing := false;
                            receipt := None; error := None |}
                         (world_of [soap 3] [soap 10]))) = [3].
Proof. repeat split; vm_compute; reflexivity. Qed.

Lemma checkout_shortfall_persists_nothing_witness :
  success (stock_check_of
             (productService.collect_insufficient
                (observed always_online (world_of [soap 3] [soap 3]))
                [{| item_product := soap 3; quantity := 5 |}])) = false
  /\ fst (CheckoutModal.handleSubmitTransaction always_online
            [{| item_product := soap 3; quantity := 5 |}] 125
            {| cashGiven := "200"; processing := false; receipt := None;
               error := None |}
            (world_of [soap 3] [soap 3]))
     = Ok {| cashGiven := "200"; processing := false; receipt := None;
             error := Some "Some items are out of stock: Soap (requested: 5, available: 3)" |}
  /\ transactions
       (remote (refreshed always_online (world_of [soap 3] [soap 3]))) = []
  /\ transaction_items
       (remote (refreshed always_online (world_of [soap 3] [soap 3]))) = [].
Proof.
  split; [vm_compute; reflexivity|].
  pose proof (checkout_shortfall_persists_nothing always_online
                [{| item_product := soap 3; quantity := 5 |}] 125
                {| cashGiven := "200"; processing := false; receipt := None;
                   error := None |}
                (world_of [soap 3] [soap 3]) _ _
                (checkStockAvailability_run _ _ _) eq_refl)
    as (Hrun & Htx & Hitems & _).
  split; [rewrite Hrun; vm_compute; reflexivity|].
  exact (conj Htx Hitems).
Defined.

Lemma invalid_payment_never_persists_witness :
  parseFloat "99.50" = Fin (9950 # 100)
  /\ (9950 # 100 < 100)%Q
  /\ CheckoutModal.press_CompleteSale always_online
       [{| item_product := soap 10; quantity := 4 |}] 100
       {| cashGiven := "99.50"; processing := false; receipt := None;
          error := None |}
       (world_of [soap 10] [soap 10])
     = (Ok {| cashGiven := "99.50"; processing := false; receipt := None;
              error := None |},
        world_of [soap 10] [soap 10]).
Proof.
  split; [reflexivity|]. split; [reflexivity|].
  refine (proj1 (proj2 (invalid_payment_never_persists always_online _ 100
                          {| cashGiven := "99.50"; processing := false;
                             receipt := None; error := None |} _ _))).
  right. exists (9950 # 100)%Q. split; reflexivity.
Defined.

Lemma createProduct_offline_witness :
  net_online always_offline (calls fresh_device) = false
  /\ exists w',
       productService.createProduct always_offline soap_draft fresh_device
       = (Ok (extend_draft soap_draft (IdStr "temp_1700000000001") 1700000000002), w')
       /\ exists w'',
            productService.getProducts always_offline w'
            = (Ok [extend_draft soap_draft (IdStr "temp_1700000000001") 1700000000002],
               w'').
Proof.
  split; [reflexivity|].
  destruct (createProduct_offline always_offline soap_draft fresh_device eq_refl)
    as (p & w' & Hrun & -> & _ & _ & _ & Hlist).
  exists w'. split; [exact Hrun|].
  apply Hlist. reflexivity.
Defined.

(** C10, the claim as stated fails for the backend: online, every prepared
    update is sent in order, so for a cart with lines of 2 and 3 on
    product 1 (stock 10) the backend row ends at 7, the stock minus the
    last line's quantity, while the cache ends at 8. *)
Lemma deduct_duplicate_lines_backend_keeps_last :
  fst (productService.deductStockAfterCheckout always_online
         [{| item_product := soap 10; quantity := 2 |};
          {| item_product := soap 10; quantity := 3 |}]
         (world_of [soap 10] [soap 10])) = Ok true
  /\ stock <$> products
                 (remote
                    (snd (productService.deductStockAfterCheckout always_online
                            [{| item_product := soap 10; quantity := 2 |};
                             {| item_product := soap 10; quantity := 3 |}]
                            (world_of [soap 10] [soap 10])))) = [10 - 3]
  /\ stock <$> cached_products
                 (snd (productService.deductStockAfterCheckout always_online
                         [{| item_product := soap 10; quantity := 2 |};
                          {| item_product := soap 10; quantity := 3 |}]
                         (world_of [soap 10] [soap 10]))) = [10 - 2].
Proof. repeat split; vm_compute; reflexivity. Qed.

Lemma deduct_duplicate_lines_first_wins_in_cache_witness :
  fst (productService.deductStockAfterCheckout always_offline
         [{| item_product := soap 10; quantity := 2 |};
          {| item_product := soap 10; quantity := 3 |}]
         (world_of [] [soap 10])) = Ok true
  /\ cached_products
       (snd (productService.deductStockAfterCheckout always_offline
               [{| item_product := soap 10; quantity := 2 |};
                {| item_product := soap 10; quantity := 3 |}]
               (world_of [] [soap 10]))) = [soap 8].
Proof.
  destruct (deduct_duplicate_lines_first_wins_in_cache always_offline
              [{| item_product := soap 10; quantity := 2 |};
               {| item_product := soap 10; quantity := 3 |}]
              (world_of [] [soap 10]) _ _ _ _
              (checkStockAvailability_run _ _ _) eq_refl (getProducts_run _ _))
    as [Hok Hcache].
  split; [exact Hok|]. rewrite Hcache. vm_compute. reflexivity.
Defined.

(** C4, the claim as stated fails: online with the backend refusing the
    update, [updateProductStock] returns [false] and the cached stock of
    product 1 stays 10 instead of becoming 4. *)
Lemma updateProductStock_remote_failure_returns_false :
  net_online backend_down (calls (world_of [soap 10] [soap 10])) = true
  /\ fst (supabase.update_stock_single backend_down (IdNum 1) 4
            (snd (productService.checkIsOnline backend_down
                    (world_of [soap 10] [soap 10]))))
     = Ok (Failed (Err "Failed to fetch"))
  /\ fst (productService.updateProductStock backend_down (IdNum 1) 4
            (world_of [soap 10] [soap 10])) = Ok false
  /\ stock <$> cached_products
                 (snd (productService.updateProductStock backend_down (IdNum 1) 4
                         (world_of [soap 10] [soap 10]))) = [10].
Proof. repeat split; vm_compute; reflexivity. Qed.

Lemma updateProductStock_remote_failure_witness :
  net_online backend_down (calls (world_of [soap 10] [soap 10])) = true
  /\ fst (productService.updateProductStock backend_down (IdNum 1) 4
            (world_of [soap 10] [soap 10])) = Ok false
  /\ storage (snd (productService.updateProductStock backend_down (IdNum 1) 4
                     (world_of [soap 10] [soap 10])))
     = storage (world_of [soap 10] [soap 10]).
Proof.
  split; [reflexivity|].
  destruct (updateProductStock_remote_failure backend_down (IdNum 1) 4
              (world_of [soap 10] [soap 10]) (Err "Failed to fetch") _
              eq_refl eq_refl)
    as (Hfalse & Hstorage & _).
  exact (conj Hfalse Hstorage).
Defined.

(** * The rest of the service layer *)

(** ** getProducts *)

(** X1.  [getProducts] never throws and never writes to the backend, and
    the list it returns is the list the cache holds afterwards.  Offline,
    or when the fetch fails, that list is the cache as it was and
    AsyncStorage is untouched; online with a successful fetch it is the
    backend's rows, newest first. *)
Theorem getProducts_returns_the_cache (env : Env) (w : World) :
  exists ps w',
    productService.getProducts env w = (Ok ps, w')
    /\ cached_products w' = ps
    /\ remote w' = remote w
    /\ (net_online env (calls w) = false
        \/ remote_error env (S (calls w)) <> None ->
        ps = cached_products w /\ storage w' = storage w)
    /\ (net_online env (calls w) = true ->
        remote_error env (S (calls w)) = None ->
        ps = supabase.newest_first (products (remote w))).
Proof.
  exists (observed env w), (refreshed env w).
  split; [apply getProducts_run|]. split; [apply cached_products_refreshed|].
  split; [reflexivity|]. unfold observed, refreshed, fetched. cbn. split.
  - intros [->|Herr]; [done|].
    destruct (net_online env (calls w)); [|done].
    by destruct (remote_error env (S (calls w))).
  - by intros -> ->.
Qed.

(** ** deleteProduct *)

Lemma deleteProduct_run (env : Env) (pid : Id) (w : World) :
  productService.deleteProduct env pid w
  = if net_online env (calls w) then
      match remote_error env (S (calls w)) with
      | Some e =>
          (Throw e,
           {| remote := remote w; storage := storage w;
              calls := S (S (calls w)) |})
      | None =>
          (Ok true,
           {| remote :=
                supabase.set_products (remote w)
                  (filter (fun p => id p <> pid) (products (remote w)));
              storage :=
                <[storageService.PRODUCTS_KEY :=
                    SProducts (filter (fun p => id p <> pid) (cached_products w))]>
                  (storage w);
              calls := S (S (calls w)) |})
      end
    else
      (Ok true,
       {| remote := remote w;
          storage :=
            <[storageService.PRODUCTS_KEY :=
                SProducts (filter (fun p => id p <> pid) (cached_products w))]>
              (storage w);
          calls := S (calls w) |}).
Proof.
  unfold productService.deleteProduct, productService.checkIsOnline,
    supabase.delete_product, supabase.request.
  unfold try_catch, bind at 1 2 3, next_call, ret at 1. cbn.
  destruct (net_online env (calls w)).
  - unfold bind at 1 2 3, next_call, ret at 1. cbn.
    destruct (remote_error env (S (calls w))); cbn; [reflexivity|].
    unfold bind. cbn. rewrite storage_getProducts_run, storage_saveProducts_run.
    reflexivity.
  - unfold ret at 1. unfold bind.
    rewrite storage_getProducts_run, storage_saveProducts_run. reflexivity.
Qed.

(** X2.  Whenever [deleteProduct] returns, it returns [true], the cached
    list is the old one without the products of that id (the others kept,
    in order), so no cached product has that id any more; online the
    backend rows of that id are gone too, offline the backend is
    untouched. *)
Theorem deleteProduct_removes_the_product (env : Env) (pid : Id) (w : World)
    (result : bool) (w' : World) :
  productService.deleteProduct env pid w = (Ok result, w') ->
  result = true
  /\ cached_products w' = filter (fun p => id p <> pid) (cached_products w)
  /\ (forall p, p ∈ cached_products w' -> id p <> pid)
  /\ products (remote w')
     = if net_online env (calls w)
       then filter (fun p => id p <> pid) (products (remote w))
       else products (remote w).
Proof.
  rewrite deleteProduct_run. intros Hrun.
  assert (Hfilter : forall (ps : list Product) (p : Product),
            p ∈ filter (fun p : Product => id p <> pid) ps -> id p <> pid).
  { intros ps p Hp. by apply list_elem_of_filter in Hp as [? _]. }
  destruct (net_online env (calls w)).
  - destruct (remote_error env (S (calls w))); [done|].
    injection Hrun as <- <-. rewrite cached_products_insert.
    repeat split. apply Hfilter.
  - injection Hrun as <- <-. rewrite cached_products_insert.
    repeat split. apply Hfilter.
Qed.

(** X3.  Online, when the backend refuses the delete, [deleteProduct]
    throws that error and neither the backend nor AsyncStorage changes:
    the product stays in the cache. *)
Theorem deleteProduct_backend_failure (env : Env) (pid : Id) (w : World)
    (failure : Error) :
  net_online env (calls w) = true ->
  remote_error env (S (calls w)) = Some failure ->
  exists w',
    productService.deleteProduct env pid w = (Throw failure, w')
    /\ remote w' = remote w
    /\ storage w' = storage w.
Proof.
  intros Hon Herr. rewrite deleteProduct_run, Hon, Herr.
  eexists. repeat split.
Qed.

(** ** updateProduct *)

Lemma updateProduct_run (env : Env) (pid : Id) (patch : ProductPatch) (w : World) :
  productService.updateProduct env pid patch w
  = if net_online env (calls w) then
      match remote_error env (S (calls w)) with
      | Some e =>
          (Throw e,
           {| remote := remote w; storage := storage w;
              calls := S (S (calls w)) |})
      | None =>
          match lookup_product pid (products (remote w)) with
          | None =>
              (Throw (Err "JSON object requested, multiple (or no) rows returned"),
               {| remote := remote w; storage := storage w;
                  calls := S (S (calls w)) |})
          | Some p =>
              (Ok (UpdatedRow (apply_patch p patch)),
               {| remote :=
                    supabase.set_products (remote w)
                      ((fun q => if bool_decide (id q = pid)
                                 then apply_patch q patch else q)
                       <$> products (remote w));
                  storage :=
                    <[storageService.PRODUCTS_KEY :=
                        SProducts
                          ((fun q => if bool_decide (id q = pid)
                                     then apply_patch p patch else q)
                           <$> cached_products w)]> (storage w);
                  calls := S (S (calls w)) |})
          end
      end
    else
      (Ok (LocalEcho pid patch),
       {| remote := remote w;
          storage :=
            <[storageService.PRODUCTS_KEY :=
                SProducts
                  ((fun q => if bool_decide (id q = pid)
                             then apply_patch q patch else q)
                   <$> cached_products w)]> (storage w);
          calls := S (calls w) |}).
Proof.
  unfold productService.updateProduct, productService.checkIsOnline,
    supabase.update_product_single, supabase.request, lookup_product.
  unfold try_catch, bind at 1 2, next_call, ret at 1. cbn.
  destruct (net_online env (calls w)).
  - unfold bind at 1 2, next_call, ret at 1. cbn.
    destruct (remote_error env (S (calls w))); cbn; [reflexivity|].
    unfold bind, get_remote, put_remote. cbn.
    destruct (find _ (products (remote w))); cbn; [|reflexivity].
    rewrite storage_getProducts_run, storage_saveProducts_run. reflexivity.
  - unfold bind.
    rewrite storage_getProducts_run, storage_saveProducts_run. reflexivity.
Qed.

(** X4.  Offline, [updateProduct] never fails: it merges the patch into
    every cached product of that id and echoes [{ id, ...patch }] back,
    leaving the backend alone.  The cached list keeps its length, order
    and ids; when no cached product has the id nothing changes at all,
    and the echo is returned all the same. *)
Theorem updateProduct_offline (env : Env) (pid : Id) (patch : ProductPatch)
    (w : World) :
  net_online env (calls w) = false ->
  exists w',
    productService.updateProduct env pid patch w = (Ok (LocalEcho pid patch), w')
    /\ remote w' = remote w
    /\ cached_products w'
       = (fun q => if bool_decide (id q = pid) then apply_patch q patch else q)
         <$> cached_products w
    /\ id <$> cached_products w' = id <$> cached_products w
    /\ (lookup_product pid (cached_products w) = None ->
        cached_products w' = cached_products w).
Proof.
  intros Hoff. rewrite updateProduct_run, Hoff. eexists. split; [reflexivity|].
  rewrite cached_products_insert. repeat split.
  - rewrite <- list_fmap_compose. apply list_fmap_ext. intros _ q _. cbn.
    by case_bool_decide.
  - unfold lookup_product. intros Hnone.
    rewrite <- (list_fmap_id (cached_products w)) at 2.
    apply list_fmap_ext. intros i q Hq. cbn.
    case_bool_decide as Hid; [|reflexivity].
    exfalso. eapply find_none in Hnone.
    + by rewrite bool_decide_eq_false in Hnone.
    + apply list_elem_of_In. by eapply list_elem_of_lookup_2.
Qed.

(** X5.  Online, when the backend has a row of that id and accepts the
    update, [updateProduct] returns the patched row, the backend rows of
    that id are patched, and every cached product of that id is replaced
    by the returned row, whatever the cache held for it; cached products
    of other ids are untouched. *)
Theorem updateProduct_online_success (env : Env) (pid : Id)
    (patch : ProductPatch) (w : World) (old : Product) :
  net_online env (calls w) = true ->
  remote_error env (S (calls w)) = None ->
  lookup_product pid (products (remote w)) = Some old ->
  exists w',
    productService.updateProduct env pid patch w
    = (Ok (UpdatedRow (apply_patch old patch)), w')
    /\ id (apply_patch old patch) = pid
    /\ products (remote w')
       = (fun q => if bool_decide (id q = pid) then apply_patch q patch else q)
         <$> products (remote w)
    /\ cached_products w'
       = (fun q => if bool_decide (id q = pid) then apply_patch old patch else q)
         <$> cached_products w
    /\ (forall q, q ∈ cached_products w' -> id q = pid -> q = apply_patch old patch).
Proof.
  intros Hon Herr Hold. rewrite updateProduct_run, Hon, Herr, Hold.
  assert (Hid : id old = pid).
  { apply find_some in Hold as [_ H]. by apply bool_decide_eq_true in H. }
  eexists. split; [reflexivity|]. rewrite cached_products_insert.
  repeat split; [exact Hid|].
  intros q Hq Hqid. apply list_elem_of_fmap in Hq as (q0 & -> & _).
  case_bool_decide; [reflexivity|]. cbn in Hqid. done.
Qed.

(** X6.  Online, when the backend's reply to the row update is an error
    (a failed request, or no row of that id), [updateProduct] throws that
    error and neither the backend nor AsyncStorage changes. *)
Theorem updateProduct_backend_failure (env : Env) (pid : Id)
    (patch : ProductPatch) (w : World) (failure : Error) (w2 : World) :
  net_online env (calls w) = true ->
  supabase.update_product_single env pid patch
    (snd (productService.checkIsOnline env w)) = (Ok (Failed failure), w2) ->
  exists w',
    productService.updateProduct env pid patch w = (Throw failure, w')
    /\ remote w' = remote w
    /\ storage w' = storage w.
Proof.
  intros Hon. rewrite updateProduct_run, Hon.
  unfold supabase.update_product_single, supabase.request,
    productService.checkIsOnline, lookup_product.
  run_monad.
  destruct (remote_error env (S (calls w))); cbn.
  - intros [= <- _]. eexists. repeat split.
  - destruct (find _ (products (remote w))); cbn; [intros [=]|].
    intros [= <- _]. eexists. repeat split.
Qed.

(** ** updateProductStock and getProductStock *)

Lemma updateProductStock_run (env : Env) (pid : Id) (v : Z) (w : World) :
  productService.updateProductStock env pid v w
  = if net_online env (calls w) then
      match remote_error env (S (calls w)),
            lookup_product pid (products (remote w)) with
      | None, Some _ =>
          (Ok true,
           {| remote :=
                supabase.set_products (remote w)
                  (supabase.set_stock_where pid v (products (remote w)));
              storage :=
                <[storageService.PRODUCTS_KEY :=
                    SProducts (supabase.set_stock_where pid v (cached_products w))]>
                  (storage w);
              calls := S (S (calls w)) |})
      | _, _ =>
          (Ok false,
           {| remote := remote w; storage := storage w;
              calls := S (S (calls w)) |})
      end
    else
      (Ok true,
       {| remote := remote w;
          storage :=
            <[storageService.PRODUCTS_KEY :=
                SProducts (supabase.set_stock_where pid v (cached_products w))]>
              (storage w);
          calls := S (calls w) |}).
Proof.
  unfold productService.updateProductStock, productService.checkIsOnline,
    supabase.update_stock_single, supabase.request, lookup_product.
  unfold try_catch, bind at 1 2, next_call, ret at 1. cbn.
  destruct (net_online env (calls w)).
  - unfold bind at 1 2, next_call, ret at 1. cbn.
    destruct (remote_error env (S (calls w))); cbn; [reflexivity|].
    unfold bind, get_remote, put_remote. cbn.
    destruct (find _ (products (remote w))); cbn; [|reflexivity].
    rewrite storage_getProducts_run, storage_saveProducts_run. reflexivity.
  - unfold bind.
    rewrite storage_getProducts_run, storage_saveProducts_run. reflexivity.
Qed.

Lemma getProductStock_run (env : Env) (pid : Id) (w : World) :
  productService.getProductStock env pid w
  = if net_online env (calls w) then
      (Ok match remote_error env (S (calls w)) with
          | Some _ => None
          | None => stock <$> lookup_product pid (products (remote w))
          end,
       {| remote := remote w; storage := storage w; calls := S (S (calls w)) |})
    else
      (Ok (stock <$> lookup_product pid (cached_products w)),
       {| remote := remote w; storage := storage w; calls := S (calls w) |}).
Proof.
  unfold productService.getProductStock, productService.checkIsOnline,
    supabase.select_stock_single, supabase.request, lookup_product.
  unfold try_catch, bind at 1 2, next_call, ret at 1. cbn.
  destruct (net_online env (calls w)).
  - unfold bind at 1 2, next_call, ret at 1. cbn.
    destruct (remote_error env (S (calls w))); cbn; [reflexivity|].
    unfold bind, get_remote, put_remote, ret. cbn.
    destruct (find _ (products (remote w))); reflexivity.
  - unfold bind. rewrite storage_getProducts_run. reflexivity.
Qed.

Lemma lookup_product_set_stock_where (pid : Id) (v : Z) (ps : list Product) :
  lookup_product pid (supabase.set_stock_where pid v ps)
  = (fun p => with_stock p v) <$> lookup_product pid ps.
Proof.
  unfold lookup_product, supabase.set_stock_where.
  induction ps as [|p ps IH]; [reflexivity|].
  rewrite fmap_cons. cbn [find].
  destruct (bool_decide (id p = pid)) eqn:Hid.
  - cbn [with_stock id]. by rewrite Hid.
  - rewrite Hid. apply IH.
Qed.

Lemma lookup_product_set_stock_where_ne (pid other : Id) (v : Z)
    (ps : list Product) :
  other <> pid ->
  lookup_product other (supabase.set_stock_where pid v ps)
  = lookup_product other ps.
Proof.
  intros Hne. unfold lookup_product, supabase.set_stock_where.
  induction ps as [|p ps IH]; [reflexivity|].
  rewrite fmap_cons. cbn [find].
  destruct (bool_decide (id p = pid)) eqn:Hid.
  - cbn [with_stock id]. apply bool_decide_eq_true in Hid.
    destruct (bool_decide (id p = other)) eqn:Hother; [|apply IH].
    apply bool_decide_eq_true in Hother. congruence.
  - destruct (bool_decide (id p = other)); [reflexivity|apply IH].
Qed.

(** X7.  [getProductStock] is a pure read: it never throws and changes
    neither the backend nor AsyncStorage.  Online it answers from the
    backend only: when the request fails it returns [null] even if the
    product is cached, and when it succeeds it returns the backend's
    stock, a stock of [0] included. *)
Theorem getProductStock_reads_only (env : Env) (pid : Id) (w : World) :
  exists answer w',
    productService.getProductStock env pid w = (Ok answer, w')
    /\ remote w' = remote w
    /\ storage w' = storage w
    /\ (net_online env (calls w) = true ->
        remote_error env (S (calls w)) <> None -> answer = None)
    /\ (net_online env (calls w) = true ->
        remote_error env (S (calls w)) = None ->
        answer = stock <$> lookup_product pid (products (remote w)))
    /\ (net_online env (calls w) = false ->
        answer = stock <$> lookup_product pid (cached_products w)).
Proof.
  rewrite getProductStock_run. destruct (net_online env (calls w)).
  - eexists _, _. split; [reflexivity|]. repeat split; try done.
    + intros _ Herr. by destruct (remote_error env (S (calls w))).
    + by intros _ ->.
  - eexists _, _. split; [reflexivity|]. repeat split; done.
Qed.

(** X8.  [updateProductStock] never throws.  It returns [true] exactly
    when the device is offline or the backend has a row of that id and
    accepts the update; the cache then has the new stock on every product
    of that id and nothing else changed in it, and online the backend
    rows of that id have it too.  Offline the backend is untouched. *)
Theorem updateProductStock_success (env : Env) (pid : Id) (v : Z) (w : World) :
  exists result w',
    productService.updateProductStock env pid v w = (Ok result, w')
    /\ (result = true
        <-> net_online env (calls w) = false
            \/ (remote_error env (S (calls w)) = None
                /\ is_Some (lookup_product pid (products (remote w)))))
    /\ (result = true ->
        cached_products w' = supabase.set_stock_where pid v (cached_products w)
        /\ products (remote w')
           = if net_online env (calls w)
             then supabase.set_stock_where pid v (products (remote w))
             else products (remote w)).
Proof.
  rewrite updateProductStock_run. destruct (net_online env (calls w)).
  - destruct (remote_error env (S (calls w))) as [e|].
    + eexists _, _. split; [reflexivity|]. split; [|done].
      split; [done|]. by intros [?|[? _]].
    + destruct (lookup_product pid (products (remote w))) as [p|].
      * eexists _, _. split; [reflexivity|]. rewrite cached_products_insert.
        split; [|done]. split; [|done]. intros _. right. by split.
      * eexists _, _. split; [reflexivity|]. split; [|done].
        split; [done|]. intros [?|[_ [? ?]]]; done.
  - eexists _, _. split; [reflexivity|]. rewrite cached_products_insert.
    split; [|done]. split; [by left|done].
Qed.

(** X9.  Set, then get.  After [updateProductStock] returned [true], an
    offline [getProductStock] for the same id returns the new stock when
    the product is cached and [null] when it is not, and an online one
    that succeeds returns the new stock when the update was made online
    too. *)
Theorem updateProductStock_then_getProductStock (env : Env) (pid : Id) (v : Z)
    (w w1 : World) :
  productService.updateProductStock env pid v w = (Ok true, w1) ->
  (net_online env (calls w1) = false ->
   fst (productService.getProductStock env pid w1)
   = Ok ((fun _ => v) <$> lookup_product pid (cached_products w)))
  /\ (net_online env (calls w) = true ->
      net_online env (calls w1) = true ->
      remote_error env (S (calls w1)) = None ->
      fst (productService.getProductStock env pid w1) = Ok (Some v)).
Proof.
  rewrite updateProductStock_run. intros Hrun. rewrite getProductStock_run.
  split.
  - intros ->. cbn [fst]. f_equal.
    destruct (net_online env (calls w)).
    + destruct (remote_error env (S (calls w))); [done|].
      destruct (lookup_product pid (products (remote w))); [|done].
      injection Hrun as <-. rewrite cached_products_insert.
      rewrite lookup_product_set_stock_where.
      by destruct (lookup_product pid (cached_products w)).
    + injection Hrun as <-. rewrite cached_products_insert.
      rewrite lookup_product_set_stock_where.
      by destruct (lookup_product pid (cached_products w)).
  - intros Hon. rewrite Hon in Hrun. intros -> ->. cbn [fst]. f_equal.
    destruct (remote_error env (S (calls w))); [done|].
    destruct (lookup_product pid (products (remote w))) as [p|] eqn:Hp; [|done].
    injection Hrun as <-. cbn [remote supabase.set_products products].
    by rewrite lookup_product_set_stock_where, Hp.
Qed.

(** ** createProduct, online *)

(** X10.  Online, [createProduct] either throws the backend's error and
    changes nothing, or returns the row the backend inserted: the draft
    with the id the backend minted, added to the backend's rows and put at
    the head of the cached list. *)
Theorem createProduct_online (env : Env) (draft : ProductDraft) (w : World) :
  net_online env (calls w) = true ->
  match remote_error env (S (calls w)) with
  | Some failure =>
      exists w',
        productService.createProduct env draft w = (Throw failure, w')
        /\ remote w' = remote w
        /\ storage w' = storage w
  | None =>
      exists row w',
        productService.createProduct env draft w = (Ok row, w')
        /\ draft_of row = draft
        /\ id row = server_id env (S (calls w))
        /\ products (remote w') = (products (remote w) ++ [row])%list
        /\ cached_products w' = row :: cached_products w
  end.
Proof.
  intros Hon.
  unfold productService.createProduct, productService.checkIsOnline,
    supabase.insert_product, supabase.request.
  run_monad. rewrite Hon. cbn.
  destruct (remote_error env (S (calls w))); cbn.
  - eexists. repeat split.
  - rewrite storage_getProducts_run, storage_saveProducts_run. cbn.
    eexists _, _. split; [reflexivity|]. rewrite cached_products_insert.
    repeat split. by destruct draft.
Qed.

(** ** More on the availability check *)

Lemma collect_insufficient_nil (view : list Product) (items : list CartItem) :
  productService.collect_insufficient view items = []
  <-> Forall (fun item => productService.is_insufficient view item = false) items.
Proof.
  induction items as [|item rest IH]; cbn [productService.collect_insufficient].
  - split; [constructor|done].
  - destruct (productService.is_insufficient view item) eqn:Hitem.
    + split; [done|]. intros H. apply Forall_cons in H as [H _]. congruence.
    + rewrite IH. split.
      * intros H. by constructor.
      * intros H. by apply Forall_cons in H as [_ H].
Qed.

Lemma is_insufficient_false (view : list Product) (item : CartItem) :
  productService.is_insufficient view item = false
  <-> exists p, lookup_product (id item) view = Some p /\ quantity item <= stock p.
Proof.
  unfold productService.is_insufficient, lookup_product.
  destruct (find _ view) as [p|].
  - rewrite Z.ltb_ge. split.
    + intros H. by exists p.
    + by intros (p' & [= <-] & H).
  - split; [done|]. by intros (p & ? & _).
Qed.

(** X11.  The availability check passes exactly when every cart line
    names a product of the observed view whose stock covers the line's
    quantity; in particular an empty cart always passes, whatever the
    catalogue holds. *)
Theorem checkStockAvailability_passes_iff (env : Env) (items : list CartItem)
    (w : World) :
  exists view check w',
    productService.getProducts env w = (Ok view, w')
    /\ productService.checkStockAvailability env items w = (Ok check, w')
    /\ (success check = true
        <-> Forall (fun item : CartItem =>
                      exists p, lookup_product (id item) view = Some p
                                /\ quantity item <= stock p) items)
    /\ (items = [] -> success check = true)
    /\ (length (insufficientItems check) <= length items)%nat.
Proof.
  eexists (observed env w), _, (refreshed env w).
  split; [apply getProducts_run|]. split; [apply checkStockAvailability_run|].
  rewrite success_stock_check_of, collect_insufficient_nil,
    insufficientItems_stock_check_of.
  split; [|split].
  - split; intros H; (eapply Forall_impl; [exact H|]); intros item;
      apply is_insufficient_false.
  - intros ->. constructor.
  - clear. induction items as [|item rest IH]; [done|].
    cbn [productService.collect_insufficient].
    destruct (productService.is_insufficient _ item); cbn; lia.
Qed.

(** ** More on the deduction *)

Lemma lookup_product_NoDup (view : list Product) (p : Product) :
  NoDup (id <$> view) -> p ∈ view -> lookup_product (id p) view = Some p.
Proof.
  unfold lookup_product.
  induction view as [|q rest IH]; [by intros _ ?%elem_of_nil|].
  rewrite fmap_cons, NoDup_cons. intros [Hq Hrest] Hp. cbn [find].
  apply elem_of_cons in Hp as [->|Hp].
  - by rewrite bool_decide_eq_true_2.
  - rewrite bool_decide_eq_false_2; [by apply IH|].
    intros Heq. apply Hq. rewrite Heq. by apply list_elem_of_fmap_2.
Qed.

(** X12.  A passed check makes the deduction exact.  When the check
    passes and the list fetched for the deduction is the view the check
    saw (as it is offline), and that view has one product per id, every
    cached product the cart names ends with its stock minus the quantity
    of its first cart line, with no clamping at zero, and every other
    product is unchanged. *)
Theorem deduct_is_exact_after_a_passed_check (env : Env) (items : list CartItem)
    (w : World) (check : StockCheck) (view : list Product) (w1 w2 : World) :
  productService.getProducts env w = (Ok view, w1) ->
  productService.checkStockAvailability env items w = (Ok check, w1) ->
  success check = true ->
  productService.getProducts env w1 = (Ok view, w2) ->
  NoDup (id <$> view) ->
  fst (productService.deductStockAfterCheckout env items w) = Ok true
  /\ cached_products (snd (productService.deductStockAfterCheckout env items w))
     = (fun p =>
          match find (fun item : CartItem => bool_decide (id item = id p)) items with
          | Some line => with_stock p (stock p - quantity line)
          | None => p
          end) <$> view
  /\ (forall line : CartItem, line ∈ items ->
      exists p, p ∈ view /\ id p = id line /\ quantity line <= stock p).
Proof.
  rewrite getProducts_run. intros [= Hview <-].
  rewrite checkStockAvailability_run. intros [= <-] Hok.
  rewrite getProducts_run. intros [= Hview' <-] Hnodup.
  rewrite deductStockAfterCheckout_run, Hok, batchUpdateProductStock_run.
  cbn [fst snd].
  rewrite cached_products_insert, cached_products_refreshed, Hview'.
  apply success_stock_check_of, collect_insufficient_nil in Hok.
  rewrite Hview, Forall_forall in Hok.
  split; [reflexivity|]. split.
  - unfold productService.apply_updates. apply list_fmap_ext.
    intros i p Hp%list_elem_of_lookup_2. cbn. rewrite find_fmap_update.
    destruct (find (fun item : CartItem => bool_decide (id item = id p)) items)
      as [line|] eqn:Hline; [|reflexivity].
    cbn. apply find_some in Hline as [Hin Hid].
    apply bool_decide_eq_true in Hid.
    apply list_elem_of_In, Hok, is_insufficient_false in Hin as (p' & Hp' & Hle).
    rewrite Hid, (lookup_product_NoDup view p Hnodup Hp) in Hp'.
    injection Hp' as <-.
    unfold available_stock. rewrite (lookup_product_NoDup view p Hnodup Hp).
    by rewrite Z.max_r by lia.
  - intros line Hin.
    apply Hok, is_insufficient_false in Hin as (p & Hp & Hle).
    exists p. apply find_some in Hp as [Hp Hid].
    apply bool_decide_eq_true in Hid. split; [by apply list_elem_of_In|done].
Qed.

Lemma apply_updates_cons (u : StockUpdate) (rest : list StockUpdate)
    (ps : list Product) :
  productId u ∉ productId <$> rest ->
  productService.apply_updates rest
    (supabase.set_stock_where (productId u) (newStock u) ps)
  = productService.apply_updates (u :: rest) ps.
Proof.
  intros Hfresh. unfold productService.apply_updates, supabase.set_stock_where.
  rewrite <- list_fmap_compose. apply list_fmap_ext. intros _ p _. cbn.
  destruct (bool_decide (id p = productId u)) eqn:Hid.
  - apply bool_decide_eq_true in Hid.
    rewrite (bool_decide_eq_true_2 (productId u = id p)) by done. cbn.
    destruct (find (fun u0 => bool_decide (productId u0 = id p)) rest)
      as [u'|] eqn:Hfind; [|reflexivity].
    exfalso. apply find_some in Hfind as [Hin Hu'].
    apply bool_decide_eq_true in Hu'. apply Hfresh.
    rewrite <- Hid, <- Hu'. by apply list_elem_of_fmap_2, list_elem_of_In.
  - apply bool_decide_eq_false in Hid.
    rewrite (bool_decide_eq_false_2 (productId u = id p)) by done.
    reflexivity.
Qed.

Lemma remote_after_updates_healthy (env : Env) (updates : list StockUpdate) :
  (forall n, remote_error env n = None) ->
  NoDup (productId <$> updates) ->
  forall n r,
    remote_after_updates env n updates r
    = supabase.set_products r (productService.apply_updates updates (products r)).
Proof.
  intros Hhealthy.
  induction updates as [|u rest IH]; intros Hnodup n r.
  - cbn. unfold productService.apply_updates, supabase.set_products.
    destruct r. cbn. f_equal. by rewrite list_fmap_id.
  - rewrite fmap_cons in Hnodup. apply NoDup_cons in Hnodup as [Hfresh Hrest].
    cbn [remote_after_updates]. rewrite Hhealthy, (IH Hrest).
    unfold supabase.set_products. cbn [products transactions transaction_items].
    f_equal. by apply apply_updates_cons.
Qed.

(** X13.  An online sale without a failed request leaves the cache and
    the backend in step.  When the device stays online, no backend
    request fails and the cart has one line per product id, a sale that
    goes through writes the same stocks to both: the backend rows are the
    old rows with the prepared updates applied, and the cached list holds
    exactly the backend's rows afterwards. *)
Theorem online_sale_keeps_cache_and_backend_in_step (env : Env)
    (items : list CartItem) (w : World) :
  (forall n, net_online env n = true) ->
  (forall n, remote_error env n = None) ->
  NoDup ((fun item : CartItem => id item) <$> items) ->
  fst (productService.deductStockAfterCheckout env items w) = Ok true ->
  products (remote (snd (productService.deductStockAfterCheckout env items w)))
  = productService.apply_updates
      (productService.prepare_updates
         (supabase.newest_first (products (remote w))) items)
      (products (remote w))
  /\ cached_products (snd (productService.deductStockAfterCheckout env items w))
     ≡ₚ products (remote (snd (productService.deductStockAfterCheckout env items w))).
Proof.
  intros Hon Hhealthy Hnodup.
  rewrite deductStockAfterCheckout_run.
  destruct (success _); [|done]. intros _.
  rewrite batchUpdateProductStock_run. cbn [snd remote].
  rewrite cached_products_insert, cached_products_refreshed, Hon.
  assert (Hview : observed env (refreshed env w)
                  = supabase.newest_first (products (remote w))).
  { unfold observed, fetched. by rewrite Hon, Hhealthy. }
  rewrite Hview, remote_after_updates_healthy; [|done|].
  - cbn. split; [reflexivity|].
    unfold productService.apply_updates, supabase.newest_first.
    by rewrite merge_sort_Permutation.
  - unfold productService.prepare_updates.
    rewrite <- list_fmap_compose. exact Hnodup.
Qed.

(** ** Sessions in AsyncStorage *)

Lemma storage_getSession_run (w : World) :
  storageService.getSession w = (Ok (stored_session w), w).
Proof.
  unfold storageService.getSession, AsyncStorage.getItem, stored_session.
  run_monad.
  destruct (storage w !! storageService.KEYS_SESSION) as [[ps|s|s]|]; reflexivity.
Qed.

Lemma storage_saveSession_run (session : Session) (w : World) :
  storageService.saveSession session w
  = (Ok tt,
     {| remote := remote w;
        storage :=
          match access_token session with
          | Some tok =>
              if bool_decide (tok = "")
              then <[storageService.KEYS_SESSION := SSession session]> (storage w)
              else <[storageService.KEYS_AUTH_TOKEN := SText tok]>
                     (<[storageService.KEYS_SESSION := SSession session]> (storage w))
          | None => <[storageService.KEYS_SESSION := SSession session]> (storage w)
          end;
        calls := calls w |}).
Proof.
  unfold storageService.saveSession, AsyncStorage.setItem. run_monad.
  destruct (access_token session) as [tok|]; [|reflexivity].
  destruct (bool_decide (tok = "")); reflexivity.
Qed.

#[global] Arguments storageService.getSession : simpl never.
#[global] Arguments storageService.saveSession : simpl never.

Lemma stored_session_after_save (session : Session) (w : World) :
  stored_session (snd (storageService.saveSession session w)) = Some session.
Proof.
  rewrite storage_saveSession_run. unfold stored_session. cbn.
  destruct (access_token session) as [tok|]; [destruct (bool_decide (tok = ""))|];
    by simplify_map_eq.
Qed.

Lemma cached_products_after_save (session : Session) (w : World) :
  cached_products (snd (storageService.saveSession session w)) = cached_products w.
Proof.
  rewrite storage_saveSession_run. unfold cached_products. cbn.
  destruct (access_token session) as [tok|]; [destruct (bool_decide (tok = ""))|];
    by simplify_map_eq.
Qed.

(** X14.  Save, then read.  After [saveSession], [getSession] of the
    storage service returns that session, and the cached products are as
    before.  The auth-token entry is overwritten only when the session
    carries a non-empty access token; otherwise whatever token was stored
    before stays. *)
Theorem saveSession_then_getSession (session : Session) (w : World) :
  exists w',
    storageService.saveSession session w = (Ok tt, w')
    /\ fst (storageService.getSession w') = Ok (Some session)
    /\ cached_products w' = cached_products w
    /\ storage w' !! storageService.KEYS_AUTH_TOKEN
       = match access_token session with
         | Some tok =>
             if bool_decide (tok = "")
             then storage w !! storageService.KEYS_AUTH_TOKEN
             else Some (SText tok)
         | None => storage w !! storageService.KEYS_AUTH_TOKEN
         end.
Proof.
  eexists. split; [apply storage_saveSession_run|].
  rewrite storage_getSession_run.
  pose proof (stored_session_after_save session w) as Hs.
  pose proof (cached_products_after_save session w) as Hc.
  rewrite storage_saveSession_run in Hs, Hc. cbn [snd fst] in *.
  rewrite Hs, Hc. repeat split. cbn.
  destruct (access_token session) as [tok|]; [destruct (bool_decide (tok = ""))|];
    by simplify_map_eq.
Qed.

Lemma signOut_run (env : Env) (w : World) :
  authService.signOut env w
  = (Ok tt,
     {| remote := remote w;
        storage :=
          delete storageService.KEYS_SESSION
            (delete storageService.KEYS_AUTH_TOKEN (storage w));
        calls := S (calls w) |}).
Proof.
  unfold authService.signOut, supabase.auth_signOut, supabase.request,
    storageService.clearSession, AsyncStorage.multiRemove.
  run_monad. by destruct (remote_error env (calls w)).
Qed.

(** X15.  [signOut] forgets the session and nothing else: afterwards the
    storage service has no session to return, while the cached product
    list and the backend tables are as they were. *)
Theorem signOut_keeps_the_product_cache (env : Env) (w : World) :
  exists w',
    authService.signOut env w = (Ok tt, w')
    /\ fst (storageService.getSession w') = Ok None
    /\ cached_products w' = cached_products w
    /\ remote w' = remote w.
Proof.
  rewrite signOut_run. eexists. split; [reflexivity|].
  rewrite storage_getSession_run. unfold stored_session, cached_products. cbn.
  repeat split; by simplify_map_eq.
Qed.

(** ** authService *)

Lemma signIn_run (auth : AuthEnv) (email password : string) (w : World) :
  authService.signIn auth email password w
  = match sign_in_reply auth (calls w) email password with
    | Data data =>
        (Ok (SignedIn data),
         snd (storageService.saveSession (data_session data)
                {| remote := remote w; storage := storage w;
                   calls := S (calls w) |}))
    | Failed e =>
        if is_connected auth (S (calls w)) then
          (Throw e,
           {| remote := remote w; storage := storage w;
              calls := S (S (calls w)) |})
        else
          (match stored_session w with
           | Some session => Ok (Restored session)
           | None => Throw e
           end,
           {| remote := remote w; storage := storage w;
              calls := S (S (calls w)) |})
    end.
Proof.
  unfold authService.signIn, supabase.auth_signInWithPassword,
    supabase.NetInfo_isConnected.
  unfold try_catch, bind at 1 2, next_call, ret at 1. cbn.
  destruct (sign_in_reply auth (calls w) email password) as [e|data]; cbn.
  - unfold bind at 1, next_call, ret at 1. cbn.
    destruct (is_connected auth (S (calls w))); cbn; [reflexivity|].
    unfold bind. rewrite storage_getSession_run. unfold stored_session. cbn.
    by destruct (storage w !! storageService.KEYS_SESSION) as [[]|].
  - unfold bind. rewrite storage_saveSession_run. reflexivity.
Qed.

(** X16.  When the backend accepts the credentials, [signIn] returns the
    backend's data and stores its session: the storage service returns
    that session afterwards.  Products, cached or on the backend, are not
    touched. *)
Theorem signIn_success_stores_the_session (auth : AuthEnv)
    (email password : string) (w : World) (data : AuthData) :
  sign_in_reply auth (calls w) email password = Data data ->
  exists w',
    authService.signIn auth email password w = (Ok (SignedIn data), w')
    /\ fst (storageService.getSession w') = Ok (Some (data_session data))
    /\ cached_products w' = cached_products w
    /\ remote w' = remote w.
Proof.
  intros Hreply. rewrite signIn_run, Hreply. eexists. split; [reflexivity|].
  rewrite storage_getSession_run, stored_session_after_save,
    cached_products_after_save, storage_saveSession_run.
  repeat split.
Qed.

(** X17.  When the sign-in request fails, what [signIn] does depends on
    [isConnected] alone.  Connected, it throws the error.  Not connected,
    it returns the stored session if there is one, whatever email and
    password were typed, and throws the error otherwise.  In no case does
    it write to AsyncStorage. *)
Theorem signIn_failure (auth : AuthEnv) (email password : string) (w : World)
    (failure : Error) :
  sign_in_reply auth (calls w) email password = Failed failure ->
  exists w',
    authService.signIn auth email password w
    = (if is_connected auth (S (calls w)) then Throw failure
       else match stored_session w with
            | Some session => Ok (Restored session)
            | None => Throw failure
            end, w')
    /\ storage w' = storage w
    /\ remote w' = remote w.
Proof.
  intros Hreply. rewrite signIn_run, Hreply.
  destruct (is_connected auth (S (calls w))); eexists; repeat split.
Qed.

(** X18.  After [signOut] there is no offline way back in: a sign-in
    whose request fails throws the error, connected or not, since the
    stored session it could fall back on is gone. *)
Theorem signIn_after_signOut_fails (env : Env) (auth : AuthEnv)
    (email password : string) (w w1 : World) (failure : Error) :
  authService.signOut env w = (Ok tt, w1) ->
  sign_in_reply auth (calls w1) email password = Failed failure ->
  fst (authService.signIn auth email password w1) = Throw failure.
Proof.
  intros Hout Hreply. rewrite signIn_run, Hreply.
  assert (Hnone : stored_session w1 = None).
  { rewrite signOut_run in Hout. injection Hout as <-.
    unfold stored_session. cbn. by simplify_map_eq. }
  rewrite Hnone. by destruct (is_connected auth (S (calls w1))).
Qed.

Lemma saveSession_ok (session : Session) (w : World) :
  exists w',
    storageService.saveSession session w = (Ok tt, w')
    /\ stored_session w' = Some session
    /\ cached_products w' = cached_products w
    /\ remote w' = remote w.
Proof.
  exists (snd (storageService.saveSession session w)).
  split; [by rewrite storage_saveSession_run|].
  split; [apply stored_session_after_save|].
  split; [apply cached_products_after_save|].
  by rewrite storage_saveSession_run.
Qed.

(** X19.  [refreshSession] never throws and never touches the backend
    tables.  When the refresh replies with an error it returns the stored
    session ([null] if none) and writes nothing; when it replies with a
    session and no error that session is stored and returned; when it
    replies with neither it returns [{ session: null }] and writes
    nothing, without falling back on the stored session. *)
Theorem refreshSession_never_throws (auth : AuthEnv) (w : World) :
  exists result w',
    authService.refreshSession auth w = (Ok result, w')
    /\ remote w' = remote w
    /\ cached_products w' = cached_products w
    /\ match refresh_reply auth (calls w) with
       | (_, Some _) =>
           result = Some <$> stored_session w /\ storage w' = storage w
       | (Some session, None) =>
           result = Some (Some session) /\ stored_session w' = Some session
       | (None, None) => result = Some None /\ storage w' = storage w
       end.
Proof.
  unfold authService.refreshSession, supabase.auth_refreshSession.
  unfold try_catch, bind at 1 2, next_call, ret at 1. cbn.
  destruct (refresh_reply auth (calls w)) as [[session|] [e|]]; cbn.
  - unfold bind. rewrite storage_getSession_run. eexists _, _.
    split; [reflexivity|]. repeat split.
  - unfold bind at 1 2.
    destruct (saveSession_ok session
                {| remote := remote w; storage := storage w;
                   calls := S (calls w) |}) as (w' & -> & Hs & Hc & Hr).
    cbn. eexists _, _. split; [reflexivity|]. repeat split; done.
  - unfold bind. rewrite storage_getSession_run. eexists _, _.
    split; [reflexivity|]. repeat split.
  - eexists _, _. split; [reflexivity|]. repeat split.
Qed.

(** X20.  [getSession] of the auth service prefers a live session: when
    the backend reports one it is stored and returned, even if the reply
    also carries an error.  With no live session and no error it returns
    the stored session.  With no live session and an error it returns the
    stored session when the device is not connected and throws the error
    when it is.  Only the first case writes to AsyncStorage. *)
Theorem authService_getSession_cases (auth : AuthEnv) (w : World) :
  exists w',
    remote w' = remote w
    /\ cached_products w' = cached_products w
    /\ match session_reply auth (calls w) with
       | (Some session, _) =>
           authService.getSession auth w = (Ok (Some session), w')
           /\ stored_session w' = Some session
       | (None, None) =>
           authService.getSession auth w = (Ok (stored_session w), w')
           /\ storage w' = storage w
       | (None, Some failure) =>
           authService.getSession auth w
           = (if is_connected auth (S (calls w)) then Throw failure
              else Ok (stored_session w), w')
           /\ storage w' = storage w
       end.
Proof.
  unfold authService.getSession, supabase.auth_getSession,
    supabase.NetInfo_isConnected.
  unfold try_catch, bind at 1 2, next_call, ret at 1. cbn.
  destruct (session_reply auth (calls w)) as [[session|] [e|]]; cbn.
  1, 2: unfold bind;
    destruct (saveSession_ok session
                {| remote := remote w; storage := storage w;
                   calls := S (calls w) |}) as (w' & -> & Hs & Hc & Hr);
    cbn; exists w'; repeat split; done.
  - exists {| remote := remote w; storage := storage w;
              calls := S (S (calls w)) |}.
    destruct (is_connected auth (S (calls w))); cbn.
    + repeat split.
    + rewrite storage_getSession_run. repeat split.
  - exists {| remote := remote w; storage := storage w; calls := S (calls w) |}.
    rewrite storage_getSession_run. repeat split.
Qed.

(** ** The checkout handler, step by step *)

Lemma remote_after_updates_keeps_sales (env : Env) (updates : list StockUpdate) :
  forall n r,
    transactions (remote_after_updates env n updates r) = transactions r
    /\ transaction_items (remote_after_updates env n updates r)
       = transaction_items r.
Proof.
  induction updates as [|u rest IH]; intros n r; [done|].
  cbn [remote_after_updates].
  destruct (IH (S n)
              match remote_error env n with
              | Some _ => r
              | None =>
                  supabase.set_products r
                    (supabase.set_stock_where (productId u) (newStock u)
                       (products r))
              end) as [-> ->].
  by destruct (remote_error env n).
Qed.

Lemma deduct_keeps_sales (env : Env) (items : list CartItem) (w : World) :
  transactions (remote (snd (productService.deductStockAfterCheckout env items w)))
  = transactions (remote w)
  /\ transaction_items
       (remote (snd (productService.deductStockAfterCheckout env items w)))
     = transaction_items (remote w).
Proof.
  rewrite deductStockAfterCheckout_run. destruct (success _); [|done].
  rewrite batchUpdateProductStock_run. cbn [snd remote].
  destruct (net_online env (calls (refreshed env (refreshed env w)))); [|done].
  apply remote_after_updates_keeps_sales.
Qed.

Lemma deduct_never_throws (env : Env) (items : list CartItem) (w : World) :
  exists b, fst (productService.deductStockAfterCheckout env items w) = Ok b.
Proof.
  rewrite deductStockAfterCheckout_run. destruct (success _).
  - rewrite batchUpdateProductStock_run. by exists true.
  - by exists false.
Qed.

Lemma handleSubmitTransaction_run (env : Env) (cart : list CartItem) (total : Q)
    (st : ModalState) (w : World) :
  let w1 := refreshed env w in
  let n := calls w1 in
  let row := sale_row env total st n in
  let sold :=
    {| products := products (remote w);
       transactions := transactions (remote w) ++ [row];
       transaction_items := transaction_items (remote w) |} in
  CheckoutModal.handleSubmitTransaction env cart total st w
  = if success (stock_check_of
                  (productService.collect_insufficient (observed env w) cart))
    then
      match remote_error env (S (S n)) with
      | Some e =>
          (Ok (failed_checkout st e),
           {| remote := remote w; storage := storage w1;
              calls := S (S (S n)) |})
      | None =>
          match remote_error env (S (S (S n))) with
          | Some e =>
              (Ok (failed_checkout st e),
               {| remote := sold; storage := storage w1;
                  calls := S (S (S (S n))) |})
          | None =>
              (Ok (receipted st row cart),
               snd (productService.deductStockAfterCheckout env cart
                      {| remote :=
                           {| products := products (remote w);
                              transactions := transactions (remote w) ++ [row];
                              transaction_items :=
                                transaction_items (remote w) ++ item_rows row cart |};
                         storage := storage w1;
                         calls := S (S (S (S n))) |}))
          end
      end
    else
      (Ok {| cashGiven := cashGiven st; processing := false; receipt := receipt st;
             error := Some (CheckoutModal.out_of_stock_message
                              (productService.collect_insufficient
                                 (observed env w) cart)) |}, w1).
Proof.
  intros w1 n row sold.
  assert (Hremote : remote w1 = remote w) by reflexivity.
  unfold CheckoutModal.handleSubmitTransaction, try_catch, bind at 1.
  rewrite checkStockAvailability_run. fold w1.
  subst sold row n. rewrite <- Hremote. clearbody w1.
  destruct (success _) eqn:Hok; cbn [negb].
  - unfold Date.now, supabase.insert_transaction, supabase.insert_transaction_items,
      supabase.request.
    unfold bind at 1 2 3 4 5 6, next_call, ret at 1 2 3. cbn.
    destruct (remote_error env (S (S (calls w1)))); cbn; [reflexivity|].
    unfold bind at 1 2 3 4 5, next_call, get_remote, put_remote, ret at 1 2.
    cbn.
    destruct (remote_error env (S (S (S (calls w1))))); cbn; [reflexivity|].
    unfold receipted, item_rows, sale_row. cbn [tx_id].
    match goal with
    | |- context [productService.deductStockAfterCheckout env cart ?W] =>
        destruct (deduct_never_throws env cart W) as [b Hb];
        destruct (productService.deductStockAfterCheckout env cart W) as [r w']
    end.
    cbn in Hb. by subst r.
  - by rewrite insufficientItems_stock_check_of.
Qed.

(** X21.  When the availability check passes and the backend refuses the
    [transactions] insert (the third external call after the check, two
    clock reads coming first), the checkout stops: nothing is inserted,
    the backend is unchanged and no stock is deducted.  AsyncStorage is
    left as the [getProducts] of the check left it, so the cached list is
    as before or, online with a successful fetch, the rows just fetched.
    The modal shows the error's message, or a fixed text when the message
    is empty. *)
Theorem checkout_stops_when_the_sale_insert_fails (env : Env)
    (cart : list CartItem) (total : Q) (st : ModalState) (w : World)
    (check : StockCheck) (w1 : World) (failure : Error) :
  productService.checkStockAvailability env cart w = (Ok check, w1) ->
  success check = true ->
  remote_error env (S (S (calls w1))) = Some failure ->
  exists w',
    CheckoutModal.handleSubmitTransaction env cart total st w
    = (Ok (failed_checkout st failure), w')
    /\ remote w' = remote w
    /\ storage w' = storage w1
    /\ storage w' = storage (snd (productService.getProducts env w))
    /\ (cached_products w' = cached_products w
        \/ (net_online env (calls w) = true
            /\ cached_products w'
               = supabase.newest_first (products (remote w)))).
Proof.
  rewrite checkStockAvailability_run. intros [= <- <-] Hok Hfail.
  rewrite handleSubmitTransaction_run. cbn zeta. rewrite Hok, Hfail.
  eexists. split; [reflexivity|]. rewrite getProducts_run.
  repeat split.
  change (cached_products (refreshed env w) = cached_products w
          \/ (net_online env (calls w) = true
              /\ cached_products (refreshed env w)
                 = supabase.newest_first (products (remote w)))).
  rewrite cached_products_refreshed. unfold observed, fetched.
  destruct (net_online env (calls w)); [|by left].
  destruct (remote_error env (S (calls w))); [by left|by right].
Qed.

(** X22.  When the [transactions] insert succeeds and the
    [transaction_items] insert that follows fails, the transaction row
    stays on the backend with no item row, no stock is deducted on the
    backend or in the cache, and the modal shows the error. *)
Theorem checkout_leaves_a_sale_without_items (env : Env)
    (cart : list CartItem) (total : Q) (st : ModalState) (w : World)
    (check : StockCheck) (w1 : World) (failure : Error) :
  productService.checkStockAvailability env cart w = (Ok check, w1) ->
  success check = true ->
  remote_error env (S (S (calls w1))) = None ->
  remote_error env (S (S (S (calls w1)))) = Some failure ->
  exists w',
    CheckoutModal.handleSubmitTransaction env cart total st w
    = (Ok (failed_checkout st failure), w')
    /\ transactions (remote w')
       = (transactions (remote w) ++ [sale_row env total st (calls w1)])%list
    /\ transaction_items (remote w') = transaction_items (remote w)
    /\ products (remote w') = products (remote w)
    /\ storage w' = storage w1.
Proof.
  rewrite checkStockAvailability_run. intros [= <- <-] Hok Hsale Hfail.
  rewrite handleSubmitTransaction_run. cbn zeta. rewrite Hok, Hsale, Hfail.
  eexists. repeat split.
Qed.

(** X23.  When the check passes and both inserts succeed, the sale is
    recorded whatever the stock deduction then does: exactly one
    transaction row is added, and one item row per cart line, in cart
    order, each carrying the new transaction's id and the line's product
    id, quantity and price; the modal holds the receipt, with
    [price * quantity] as each line's subtotal, and no error. *)
Theorem checkout_records_the_sale (env : Env)
    (cart : list CartItem) (total : Q) (st : ModalState) (w : World)
    (check : StockCheck) (w1 : World) :
  productService.checkStockAvailability env cart w = (Ok check, w1) ->
  success check = true ->
  remote_error env (S (S (calls w1))) = None ->
  remote_error env (S (S (S (calls w1)))) = None ->
  exists w',
    CheckoutModal.handleSubmitTransaction env cart total st w
    = (Ok (receipted st (sale_row env total st (calls w1)) cart), w')
    /\ transactions (remote w')
       = (transactions (remote w) ++ [sale_row env total st (calls w1)])%list
    /\ transaction_items (remote w')
       = (transaction_items (remote w)
          ++ item_rows (sale_row env total st (calls w1)) cart)%list.
Proof.
  rewrite checkStockAvailability_run. intros [= <- <-] Hok Hsale Hitems.
  rewrite handleSubmitTransaction_run. cbn zeta. rewrite Hok, Hsale, Hitems.
  eexists. split; [reflexivity|]. cbn [snd].
  match goal with
  | |- context [productService.deductStockAfterCheckout env cart ?W] =>
      destruct (deduct_keeps_sales env cart W) as [-> ->]
  end.
  done.
Qed.

(** ** Payment *)

Lemma valid_payment_change (total : Q) (st : ModalState) :
  CheckoutModal.isValidPayment total st = true ->
  exists cash,
    parseFloat (cashGiven st) = Fin cash
    /\ (total <= cash)%Q
    /\ CheckoutModal.change total st = Fin (cash - total).
Proof.
  unfold CheckoutModal.isValidPayment, CheckoutModal.change.
  intros [Hfilled Hge]%andb_true_iff.
  destruct (bool_decide (cashGiven st = "")); [done|].
  destruct (parseFloat (cashGiven st)) as [|cash]; [done|].
  exists cash. cbn in Hge. apply Qle_bool_iff in Hge. done.
Qed.

Lemma handleSubmitTransaction_transactions (env : Env) (cart : list CartItem)
    (total : Q) (st : ModalState) (w : World) :
  let after :=
    transactions
      (remote (snd (CheckoutModal.handleSubmitTransaction env cart total st w))) in
  after = transactions (remote w)
  \/ after = (transactions (remote w)
              ++ [sale_row env total st (calls (refreshed env w))])%list.
Proof.
  cbn zeta. rewrite handleSubmitTransaction_run. cbn zeta.
  destruct (success _); [|by left].
  destruct (remote_error env (S (S (calls (refreshed env w))))); [by left|].
  destruct (remote_error env (S (S (S (calls (refreshed env w))))));
    [by right|].
  right. cbn [snd].
  match goal with
  | |- context [productService.deductStockAfterCheckout env cart ?W] =>
      destruct (deduct_keeps_sales env cart W) as [-> _]
  end.
  done.
Qed.

(** X24.  Every transaction row that a press on "Complete Sale" adds
    carries the modal's total, the status [completed], the parsed cash
    and the change [cash - total], and that change is never negative;
    a press adds at most one row and removes none. *)
Theorem pressed_sale_has_nonnegative_change (env : Env) (cart : list CartItem)
    (total : Q) (st : ModalState) (w : World) :
  let after :=
    transactions
      (remote (snd (CheckoutModal.press_CompleteSale env cart total st w))) in
  after = transactions (remote w)
  \/ exists row cash,
       after = (transactions (remote w) ++ [row])%list
       /\ tx_total row = total
       /\ tx_status row = "completed"
       /\ tx_cash_given row = Fin cash
       /\ tx_change row = Fin (cash - total)
       /\ (0 <= cash - total)%Q.
Proof.
  cbn zeta. unfold CheckoutModal.press_CompleteSale, CheckoutModal.render.
  destruct (processing st); [by left|].
  destruct (receipt st); [by left|].
  destruct (CheckoutModal.isValidPayment total st) eqn:Hvalid; [|by left].
  cbn [negb].
  destruct (handleSubmitTransaction_transactions env cart total st w)
    as [->| ->]; [by left|].
  right. apply valid_payment_change in Hvalid as (cash & Hcash & Hle & Hchange).
  eexists _, cash. split; [reflexivity|]. cbn.
  repeat split; [done|done|]. by apply Qle_minus_iff in Hle.
Qed.

(** ** The cash field *)

Lemma span_digits_no_digit (s : string) :
  fst (span_digits s) = [] -> snd (span_digits s) = s.
Proof.
  destruct s as [|c rest]; [reflexivity|].
  cbn. by destruct (is_digit c).
Qed.

Lemma span_digits_digits (s : string) :
  Forall (fun c => is_digit c = true) (fst (span_digits s)).
Proof.
  induction s as [|c rest IH]; [constructor|].
  cbn. destruct (is_digit c) eqn:Hc; cbn; [by constructor|constructor].
Qed.

Lemma digits_value_nonneg (ds : list ascii) :
  Forall (fun c => is_digit c = true) ds -> 0 <= digits_value ds.
Proof.
  unfold digits_value. intros Hds.
  assert (Hacc : forall acc, 0 <= acc ->
            0 <= foldl (fun acc c => 10 * acc + digit_value c) acc ds).
  { induction Hds as [|c ds Hc _ IH]; intros acc Hacc; [exact Hacc|].
    cbn [foldl]. apply IH.
    unfold is_digit in Hc. apply andb_true_iff in Hc as [Hlo _].
    apply Nat.leb_le in Hlo. unfold digit_value. lia. }
  by apply Hacc.
Qed.

Lemma decimal_nonneg (a b : Z) (p : positive) :
  0 <= a -> 0 <= b -> (0 <= inject_Z a + Qmake b p)%Q.
Proof.
  intros Ha Hb. unfold Qle, Qplus, inject_Z. cbn. nia.
Qed.

Lemma cash_pattern_parse (s : string) :
  cash_pattern s = true ->
  s = "" \/ s = "." \/ exists q, parseFloat s = Fin q /\ (0 <= q)%Q.
Proof.
  unfold cash_pattern, parseFloat. intros Hpat.
  pose proof (span_digits_digits s) as Hint.
  pose proof (span_digits_no_digit s) as Hs.
  destruct (span_digits s) as [int_part rest]. cbn [fst snd] in *.
  destruct rest as [|c rest'].
  - destruct int_part as [|d ds].
    + left. by rewrite <- Hs.
    + right. right. eexists. split; [reflexivity|].
      apply decimal_nonneg; [by apply digits_value_nonneg|done].
  - destruct (decide (c = "."%char)) as [->|Hc].
    + apply andb_true_iff in Hpat as [Hend _].
      apply bool_decide_eq_true in Hend.
      pose proof (span_digits_digits rest') as Hfrac.
      pose proof (span_digits_no_digit rest') as Hrest.
      destruct (span_digits rest') as [frac_part tail]. cbn [fst snd] in *.
      subst tail.
      destruct int_part as [|d ds]; [destruct frac_part as [|f fs]|].
      * right. left. by rewrite <- Hs, <- Hrest.
      * right. right. eexists. split; [reflexivity|].
        apply decimal_nonneg; [done|by apply digits_value_nonneg].
      * right. right. eexists. split; [reflexivity|].
        apply decimal_nonneg; by apply digits_value_nonneg.
    + exfalso. revert Hpat. clear -Hc.
      destruct c as [[] [] [] [] [] [] [] []]; try done.
Qed.

(** X25.  The cash field only ever holds what the filter lets through:
    starting empty, after any sequence of typed texts it is empty, or a
    lone dot, or a text [parseFloat] reads as an amount that is not
    negative.  So the sale button is judged on [NaN] only for a lone
    dot, which it refuses. *)
Theorem cash_field_holds_an_amount (inputs : list string) (st : ModalState) :
  cashGiven st = "" ->
  let text := cashGiven (cash_after inputs st) in
  cash_pattern text = true
  /\ (text = "" \/ text = "."
      \/ exists q, parseFloat text = Fin q /\ (0 <= q)%Q)
  /\ (text = "." -> forall total, CheckoutModal.isValidPayment total
                                   (cash_after inputs st) = false).
Proof.
  intros Hempty. cbn zeta.
  assert (Hpat : cash_pattern (cashGiven (cash_after inputs st)) = true).
  { unfold cash_after.
    assert (H0 : cash_pattern (cashGiven st) = true) by by rewrite Hempty.
    clear Hempty. revert st H0.
    induction inputs as [|text rest IH]; intros st H0; [exact H0|].
    cbn [foldl]. apply IH. unfold CheckoutModal.handleCashInputChange.
    by destruct (cash_pattern text) eqn:Htext. }
  split; [exact Hpat|]. split; [by apply cash_pattern_parse|].
  intros Hdot total. unfold CheckoutModal.isValidPayment. by rewrite Hdot.
Qed.

(** ** The cart *)

Lemma ids_set_quantity (pid : Id) (q : Z) (cart : list CartItem) :
  (fun item : CartItem => id item)
  <$> ((fun item : CartItem =>
          if bool_decide (id item = pid)
          then OrderScreen.set_quantity item q else item) <$> cart)
  = (fun item : CartItem => id item) <$> cart.
Proof.
  rewrite <- list_fmap_compose. apply list_fmap_ext. intros _ item _. cbn.
  by destruct (bool_decide (id item = pid)).
Qed.

Lemma ids_filter_NoDup (pid : Id) (cart : list CartItem) :
  NoDup ((fun item : CartItem => id item) <$> cart) ->
  NoDup ((fun item : CartItem => id item)
         <$> filter (fun item : CartItem => id item <> pid) cart).
Proof.
  induction cart as [|item rest IH]; [done|].
  rewrite fmap_cons, NoDup_cons. intros [Hitem Hrest].
  rewrite filter_cons. destruct (decide (id item <> pid)); [|by apply IH].
  rewrite fmap_cons. apply NoDup_cons. split; [|by apply IH].
  intros Hin. apply Hitem.
  apply list_elem_of_fmap in Hin as (other & Hid & Hother).
  apply list_elem_of_filter in Hother as [_ Hother].
  apply list_elem_of_fmap. by exists other.
Qed.

Lemma cart_line_None (pid : Id) (cart : list CartItem) :
  cart_line pid cart = None ->
  pid ∉ (fun item : CartItem => id item) <$> cart.
Proof.
  unfold cart_line. intros Hnone Hin.
  apply list_elem_of_fmap in Hin as (item & -> & Hitem).
  eapply find_none in Hnone; [|by apply list_elem_of_In].
  by rewrite bool_decide_eq_true_2 in Hnone.
Qed.

Lemma cart_step_NoDup (cart : list CartItem) (a : CartAction) :
  NoDup ((fun item : CartItem => id item) <$> cart) ->
  NoDup ((fun item : CartItem => id item) <$> cart_step cart a).
Proof.
  intros Hcart. destruct a as [product|pid n|success]; cbn [cart_step].
  - unfold OrderScreen.addToCart.
    destruct (bool_decide (stock product <= 0)); [exact Hcart|].
    fold (cart_line (id product) cart).
    destruct (cart_line (id product) cart) as [existing|] eqn:Hline.
    + destruct (bool_decide (_ > _)); by rewrite ids_set_quantity.
    + rewrite fmap_app. apply NoDup_app. split; [exact Hcart|].
      split; [|apply NoDup_singleton].
      intros pid Hin [->|[]%elem_of_nil]%elem_of_cons.
      by apply (cart_line_None _ _ Hline).
  - unfold OrderScreen.updateQuantity.
    destruct (bool_decide (n <= 0)).
    + by apply ids_filter_NoDup.
    + by rewrite ids_set_quantity.
  - destruct success; [constructor|exact Hcart].
Qed.

(** X26.  The cart never holds two lines for one product: whatever the
    user taps, scans or edits, and however often the checkout modal is
    closed, the product ids of the cart lines are pairwise distinct. *)
Theorem cart_has_one_line_per_product (actions : list CartAction) :
  NoDup ((fun item : CartItem => id item) <$> cart_after actions).
Proof.
  unfold cart_after.
  assert (H : forall cart,
            NoDup ((fun item : CartItem => id item) <$> cart) ->
            NoDup ((fun item : CartItem => id item) <$> foldl cart_step cart actions)).
  { induction actions as [|a rest IH]; intros cart Hcart; [exact Hcart|].
    cbn [foldl]. by apply IH, cart_step_NoDup. }
  apply H. constructor.
Qed.

Lemma cart_step_positive (cart : list CartItem) (a : CartAction) :
  from_the_screen a ->
  Forall (fun item => 1 <= quantity item) cart ->
  Forall (fun item => 1 <= quantity item) (cart_step cart a).
Proof.
  intros Ha Hcart. destruct a as [product|pid n|success]; cbn [cart_step].
  - cbn in Ha. unfold OrderScreen.addToCart.
    destruct (bool_decide (stock product <= 0)) eqn:Hstock; [exact Hcart|].
    apply bool_decide_eq_false in Hstock.
    assert (Hadd : 1 <= OrderScreen.or_else (quantity product) 1).
    { unfold OrderScreen.or_else. case_bool_decide; lia. }
    destruct (find _ cart) as [existing|] eqn:Hline.
    + apply find_some in Hline as [Hin _].
      rewrite Forall_forall in Hcart.
      pose proof (Hcart existing (proj2 (list_elem_of_In _ _) Hin)) as Hq.
      assert (He : OrderScreen.or_else (quantity existing) 0 = quantity existing).
      { unfold OrderScreen.or_else. case_bool_decide; lia. }
      rewrite He.
      destruct (bool_decide (_ > _)); apply Forall_fmap, Forall_forall;
        intros item Hitem; unfold compose; case_bool_decide;
        cbn; try lia; by apply Hcart.
    + apply Forall_app. split; [exact Hcart|]. by repeat constructor.
  - unfold OrderScreen.updateQuantity.
    destruct (bool_decide (n <= 0)) eqn:Hn.
    + apply Forall_forall. intros item [_ Hitem]%list_elem_of_filter.
      rewrite Forall_forall in Hcart. by apply Hcart.
    + apply bool_decide_eq_false in Hn.
      apply Forall_fmap. eapply Forall_impl; [exact Hcart|].
      intros item Hitem. unfold compose. cbn beta in Hitem.
      case_bool_decide; cbn; lia.
  - destruct success; [constructor|exact Hcart].
Qed.

(** X27.  Every line of the cart asks for at least one unit, as long as
    products are added with a quantity that is not negative (a tap adds
    1, a scan at least 1): adding never lowers a line to zero, setting a
    quantity of zero or less removes the line instead of keeping it. *)
Theorem cart_quantities_are_positive (actions : list CartAction) :
  Forall from_the_screen actions ->
  Forall (fun item => 1 <= quantity item) (cart_after actions).
Proof.
  unfold cart_after.
  assert (H : forall cart,
            Forall from_the_screen actions ->
            Forall (fun item => 1 <= quantity item) cart ->
            Forall (fun item => 1 <= quantity item) (foldl cart_step cart actions)).
  { induction actions as [|a rest IH]; intros cart Hok Hcart; [exact Hcart|].
    apply Forall_cons in Hok as [Ha Hrest].
    cbn [foldl]. apply IH; [exact Hrest|]. by apply cart_step_positive. }
  intros Hok. apply H; [exact Hok|constructor].
Qed.

Lemma cart_line_fmap (pid : Id) (f : CartItem -> CartItem) (cart : list CartItem) :
  (forall item : CartItem, id (f item) = id item) ->
  cart_line pid (f <$> cart) = f <$> cart_line pid cart.
Proof.
  intros Hf. unfold cart_line.
  induction cart as [|item rest IH]; [reflexivity|].
  rewrite fmap_cons. cbn [find]. rewrite Hf.
  destruct (bool_decide (id item = pid)); [reflexivity|apply IH].
Qed.

Lemma cart_line_app (pid : Id) (cart : list CartItem) (item : CartItem) :
  cart_line pid (cart ++ [item])
  = match cart_line pid cart with
    | Some line => Some line
    | None => if bool_decide (id item = pid) then Some item else None
    end.
Proof.
  unfold cart_line. induction cart as [|first rest IH]; [reflexivity|].
  cbn [app find]. destruct (bool_decide (id first = pid)); [reflexivity|apply IH].
Qed.

Lemma cart_line_filter (pid other : Id) (cart : list CartItem) :
  cart_line other (filter (fun item : CartItem => id item <> pid) cart)
  = if bool_decide (other = pid) then None else cart_line other cart.
Proof.
  unfold cart_line. induction cart as [|item rest IH].
  - by destruct (bool_decide (other = pid)).
  - rewrite filter_cons. destruct (decide (id item <> pid)) as [Hne|Heq].
    + cbn [find]. rewrite IH.
      destruct (bool_decide (id item = other)) eqn:Hitem; [|reflexivity].
      apply bool_decide_eq_true in Hitem.
      by rewrite bool_decide_eq_false_2 by congruence.
    + apply dec_stable in Heq. rewrite IH. cbn [find].
      destruct (bool_decide (other = pid)) eqn:Hother; [reflexivity|].
      apply bool_decide_eq_false in Hother.
      by rewrite bool_decide_eq_false_2 by congruence.
Qed.

(** X28.  What [addToCart] does to the line of the product: an
    out-of-stock product leaves the cart as it is; a product already in
    the cart has its line's quantity raised by the added quantity and
    capped at the stock of the product as passed; a product not yet in
    the cart gets a new last line with the added quantity, not capped by
    the stock.  An added quantity of 0 counts as 1.  No other line
    changes. *)
Theorem addToCart_line (product : CartItem) (cart : list CartItem) :
  (stock product <= 0 -> OrderScreen.addToCart product cart = cart)
  /\ (0 < stock product ->
      cart_line (id product) (OrderScreen.addToCart product cart)
      = Some match cart_line (id product) cart with
             | Some existing =>
                 OrderScreen.set_quantity existing
                   (Z.min (quantity existing
                           + OrderScreen.or_else (quantity product) 1)
                      (stock product))
             | None =>
                 OrderScreen.set_quantity product
                   (OrderScreen.or_else (quantity product) 1)
             end)
  /\ (forall pid, pid <> id product ->
      cart_line pid (OrderScreen.addToCart product cart) = cart_line pid cart).
Proof.
  unfold OrderScreen.addToCart. fold (cart_line (id product) cart).
  split; [|split].
  - intros Hout. by rewrite bool_decide_eq_true_2.
  - intros Hin. rewrite bool_decide_eq_false_2 by lia.
    destruct (cart_line (id product) cart) as [existing|] eqn:Hline.
    + assert (Hid : id existing = id product).
      { apply find_some in Hline as [_ H]. by apply bool_decide_eq_true in H. }
      assert (He : OrderScreen.or_else (quantity existing) 0 = quantity existing).
      { unfold OrderScreen.or_else. by case_bool_decide. }
      rewrite He. case_bool_decide as Hcap.
      * rewrite cart_line_fmap, Hline by (intros item; by case_bool_decide).
        cbn. rewrite bool_decide_eq_true_2 by done. by rewrite Z.min_r by lia.
      * rewrite cart_line_fmap, Hline by (intros item; by case_bool_decide).
        cbn. rewrite bool_decide_eq_true_2 by done. by rewrite Z.min_l by lia.
    + rewrite cart_line_app, Hline. by rewrite bool_decide_eq_true_2.
  - intros pid Hpid. destruct (bool_decide (stock product <= 0)); [reflexivity|].
    destruct (cart_line (id product) cart) as [existing|] eqn:Hline.
    + assert (Hkeep : forall q,
                cart_line pid
                  ((fun item : CartItem =>
                      if bool_decide (id item = id product)
                      then OrderScreen.set_quantity item q else item) <$> cart)
                = cart_line pid cart).
      { intros q. rewrite cart_line_fmap by (intros item; by case_bool_decide).
        destruct (cart_line pid cart) as [line|] eqn:Hother; [|reflexivity].
        cbn. apply find_some in Hother as [_ H].
        apply bool_decide_eq_true in H.
        by rewrite bool_decide_eq_false_2 by congruence. }
      destruct (bool_decide (_ > _)); apply Hkeep.
    + rewrite cart_line_app. destruct (cart_line pid cart); [reflexivity|].
      cbn [OrderScreen.set_quantity item_product].
      by rewrite bool_decide_eq_false_2 by congruence.
Qed.

(** X29.  What [updateQuantity] does to the line of the product: a new
    quantity of zero or less removes the line, a positive one replaces
    the line's quantity with it, with no cap by the stock; no other line
    changes. *)
Theorem updateQuantity_line (pid : Id) (n : Z) (cart : list CartItem) :
  cart_line pid (OrderScreen.updateQuantity pid n cart)
  = (if bool_decide (n <= 0) then None
     else (fun line => OrderScreen.set_quantity line n) <$> cart_line pid cart)
  /\ (forall other, other <> pid ->
      cart_line other (OrderScreen.updateQuantity pid n cart)
      = cart_line other cart).
Proof.
  unfold OrderScreen.updateQuantity. split.
  - destruct (bool_decide (n <= 0)).
    + rewrite cart_line_filter. by rewrite bool_decide_eq_true_2.
    + rewrite cart_line_fmap by (intros item; by case_bool_decide).
      destruct (cart_line pid cart) as [line|] eqn:Hline; [|reflexivity].
      cbn. apply find_some in Hline as [_ H]. apply bool_decide_eq_true in H.
      by rewrite bool_decide_eq_true_2.
  - intros other Hother. destruct (bool_decide (n <= 0)).
    + rewrite cart_line_filter. by rewrite bool_decide_eq_false_2.
    + rewrite cart_line_fmap by (intros item; by case_bool_decide).
      destruct (cart_line other cart) as [line|] eqn:Hline; [|reflexivity].
      cbn. apply find_some in Hline as [_ H]. apply bool_decide_eq_true in H.
      by rewrite bool_decide_eq_false_2 by congruence.
Qed.

(** ** Concrete runs of the rest of the service layer *)

Lemma deleteProduct_removes_the_product_witness :
  productService.deleteProduct always_online (IdNum 1)
    (world_of [soap 10] [soap 10])
  = (Ok true, world_of_after_delete)
  /\ cached_products world_of_after_delete = [].
Proof.
  split; [vm_compute; reflexivity|].
  destruct (deleteProduct_removes_the_product always_online (IdNum 1)
              (world_of [soap 10] [soap 10]) true world_of_after_delete)
    as (_ & Hcache & _); [vm_compute; reflexivity|].
  rewrite Hcache. reflexivity.
Defined.

Lemma deleteProduct_backend_failure_witness :
  exists w',
    productService.deleteProduct backend_down (IdNum 1)
      (world_of [soap 10] [soap 10])
    = (Throw (Err "Failed to fetch"), w')
    /\ storage w' = storage (world_of [soap 10] [soap 10]).
Proof.
  destruct (deleteProduct_backend_failure backend_down (IdNum 1)
              (world_of [soap 10] [soap 10]) (Err "Failed to fetch")
              eq_refl eq_refl)
    as (w' & Hrun & _ & Hstorage).
  exists w'. exact (conj Hrun Hstorage).
Defined.

Lemma updateProduct_offline_witness :
  exists w',
    productService.updateProduct always_offline (IdNum 1) rename_patch
      (world_of [soap 10] [soap 10])
    = (Ok (LocalEcho (IdNum 1) rename_patch), w')
    /\ name <$> cached_products w' = ["Bar soap"].
Proof.
  destruct (updateProduct_offline always_offline (IdNum 1) rename_patch
              (world_of [soap 10] [soap 10]) eq_refl)
    as (w' & Hrun & _ & Hcache & _).
  exists w'. split; [exact Hrun|]. rewrite Hcache. reflexivity.
Defined.

Lemma updateProduct_online_success_witness :
  exists w',
    productService.updateProduct always_online (IdNum 1) rename_patch
      (world_of [soap 10] [soap 3])
    = (Ok (UpdatedRow (apply_patch (soap 10) rename_patch)), w')
    /\ stock <$> cached_products w' = [10].
Proof.
  destruct (updateProduct_online_success always_online (IdNum 1) rename_patch
              (world_of [soap 10] [soap 3]) (soap 10) eq_refl eq_refl eq_refl)
    as (w' & Hrun & _ & _ & Hcache & _).
  exists w'. split; [exact Hrun|]. rewrite Hcache. reflexivity.
Defined.

Lemma updateProduct_backend_failure_witness :
  exists w',
    productService.updateProduct backend_down (IdNum 1) rename_patch
      (world_of [soap 10] [soap 10])
    = (Throw (Err "Failed to fetch"), w')
    /\ storage w' = storage (world_of [soap 10] [soap 10]).
Proof.
  destruct (updateProduct_backend_failure backend_down (IdNum 1) rename_patch
              (world_of [soap 10] [soap 10]) (Err "Failed to fetch") _
              eq_refl eq_refl)
    as (w' & Hrun & _ & Hstorage).
  exists w'. exact (conj Hrun Hstorage).
Defined.

Lemma updateProductStock_then_getProductStock_witness :
  fst (productService.getProductStock always_offline (IdNum 1)
         (snd (productService.updateProductStock always_offline (IdNum 1) 4
                 (world_of [soap 10] [soap 10]))))
  = Ok (Some 4).
Proof.
  assert (Hrun : productService.updateProductStock always_offline (IdNum 1) 4
                   (world_of [soap 10] [soap 10])
                 = (Ok true,
                    snd (productService.updateProductStock always_offline
                           (IdNum 1) 4 (world_of [soap 10] [soap 10]))))
    by (vm_compute; reflexivity).
  destruct (updateProductStock_then_getProductStock always_offline (IdNum 1) 4
              _ _ Hrun) as [Hoffline _].
  rewrite (Hoffline eq_refl). reflexivity.
Defined.

Lemma createProduct_online_witness :
  exists row w',
    productService.createProduct always_online soap_draft fresh_device
    = (Ok row, w')
    /\ id row = IdNum 1
    /\ cached_products w' = [row].
Proof.
  pose proof (createProduct_online always_online soap_draft fresh_device eq_refl)
    as H.
  cbn in H. destruct H as (row & w' & Hrun & _ & Hid & _ & Hcache).
  exists row, w'. exact (conj Hrun (conj Hid Hcache)).
Defined.

Lemma deduct_is_exact_after_a_passed_check_witness :
  NoDup (id <$> [soap 10])
  /\ stock <$> cached_products
                 (snd (productService.deductStockAfterCheckout always_offline
                         [{| item_product := soap 10; quantity := 4 |}]
                         (world_of [] [soap 10]))) = [6].
Proof.
  assert (Hnodup : NoDup (id <$> [soap 10])).
  { apply NoDup_singleton. }
  split; [exact Hnodup|].
  destruct (deduct_is_exact_after_a_passed_check always_offline
              [{| item_product := soap 10; quantity := 4 |}]
              (world_of [] [soap 10]) _ [soap 10] _ _
              (getProducts_run _ _) (checkStockAvailability_run _ _ _)
              eq_refl (getProducts_run _ _) Hnodup)
    as (_ & Hcache & _).
  rewrite Hcache. reflexivity.
Defined.

Lemma online_sale_keeps_cache_and_backend_in_step_witness :
  stock <$> products
              (remote
                 (snd (productService.deductStockAfterCheckout always_online
                         [{| item_product := soap 10; quantity := 4 |}]
                         (world_of [soap 10] [soap 9])))) = [6]
  /\ cached_products
       (snd (productService.deductStockAfterCheckout always_online
               [{| item_product := soap 10; quantity := 4 |}]
               (world_of [soap 10] [soap 9])))
     ≡ₚ products
          (remote
             (snd (productService.deductStockAfterCheckout always_online
                     [{| item_product := soap 10; quantity := 4 |}]
                     (world_of [soap 10] [soap 9])))).
Proof.
  destruct (online_sale_keeps_cache_and_backend_in_step always_online
              [{| item_product := soap 10; quantity := 4 |}]
              (world_of [soap 10] [soap 9])
              (fun _ => eq_refl) (fun _ => eq_refl))
    as [Hbackend Hstep].
  - apply NoDup_singleton.
  - vm_compute. reflexivity.
  - split; [rewrite Hbackend; reflexivity|exact Hstep].
Defined.

Lemma signIn_success_stores_the_session_witness :
  exists w',
    authService.signIn auth_accepts "ana@shop.test" "secret" fresh_device
    = (Ok (SignedIn {| data_user := "ana@shop.test";
                       data_session := ana_session |}), w')
    /\ fst (storageService.getSession w') = Ok (Some ana_session).
Proof.
  destruct (signIn_success_stores_the_session auth_accepts "ana@shop.test"
              "secret" fresh_device _ eq_refl)
    as (w' & Hrun & Hsession & _).
  exists w'. exact (conj Hrun Hsession).
Defined.

Lemma signIn_failure_witness :
  exists w',
    authService.signIn auth_unreachable "ana@shop.test" "not the password"
      signed_in_device
    = (Ok (Restored ana_session), w')
    /\ storage w' = storage signed_in_device.
Proof.
  destruct (signIn_failure auth_unreachable "ana@shop.test" "not the password"
              signed_in_device _ eq_refl)
    as (w' & Hrun & Hstorage & _).
  exists w'. split; [|exact Hstorage]. rewrite Hrun. reflexivity.
Defined.

Lemma signIn_after_signOut_fails_witness :
  fst (authService.signIn auth_unreachable "ana@shop.test" "secret"
         (snd (authService.signOut always_online signed_in_device)))
  = Throw (Err "Network request failed").
Proof.
  apply (signIn_after_signOut_fails always_online auth_unreachable
           "ana@shop.test" "secret" signed_in_device).
  - vm_compute. reflexivity.
  - reflexivity.
Defined.

Lemma checkout_stops_when_the_sale_insert_fails_witness :
  exists w',
    CheckoutModal.handleSubmitTransaction (fails_at 4)
      [{| item_product := soap 10; quantity := 4 |}] 100 (form_with_cash "100")
      (world_of [soap 10] [soap 10])
    = (Ok (failed_checkout (form_with_cash "100") (Err "Failed to fetch")), w')
    /\ remote w' = remote (world_of [soap 10] [soap 10]).
Proof.
  destruct (checkout_stops_when_the_sale_insert_fails (fails_at 4)
              [{| item_product := soap 10; quantity := 4 |}] 100
              (form_with_cash "100") (world_of [soap 10] [soap 10]) _ _
              (Err "Failed to fetch")
              (checkStockAvailability_run _ _ _) eq_refl eq_refl)
    as (w' & Hrun & Hremote & _).
  exists w'. exact (conj Hrun Hremote).
Defined.

(** With a stale cache the stopped checkout still refreshes it: backend
    stock 12, cached stock 10, and the cached stock is 12 afterwards,
    through the [getProducts] of the check; nothing is deducted. *)
Example stopped_checkout_refreshes_a_stale_cache :
  stock <$> cached_products
              (snd (CheckoutModal.handleSubmitTransaction (fails_at 4)
                      [{| item_product := soap 10; quantity := 4 |}] 100
                      (form_with_cash "100") (world_of [soap 12] [soap 10])))
  = [12]
  /\ transactions
       (remote
          (snd (CheckoutModal.handleSubmitTransaction (fails_at 4)
                  [{| item_product := soap 10; quantity := 4 |}] 100
                  (form_with_cash "100") (world_of [soap 12] [soap 10])))) = [].
Proof. split; vm_compute; reflexivity. Qed.

Lemma checkout_leaves_a_sale_without_items_witness :
  exists w',
    CheckoutModal.handleSubmitTransaction (fails_at 5)
      [{| item_product := soap 10; quantity := 4 |}] 100 (form_with_cash "100")
      (world_of [soap 10] [soap 10])
    = (Ok (failed_checkout (form_with_cash "100") (Err "Failed to fetch")), w')
    /\ length (transactions (remote w')) = 1%nat
    /\ transaction_items (remote w') = []
    /\ stock <$> products (remote w') = [10].
Proof.
  destruct (checkout_leaves_a_sale_without_items (fails_at 5)
              [{| item_product := soap 10; quantity := 4 |}] 100
              (form_with_cash "100") (world_of [soap 10] [soap 10]) _ _
              (Err "Failed to fetch")
              (checkStockAvailability_run _ _ _) eq_refl eq_refl eq_refl)
    as (w' & Hrun & Hsale & Hitems & Hproducts & _).
  exists w'. split; [exact Hrun|].
  rewrite Hsale, Hitems, Hproducts. repeat split.
Defined.

Lemma checkout_records_the_sale_witness :
  exists w',
    fst (CheckoutModal.handleSubmitTransaction always_online
           [{| item_product := soap 10; quantity := 4 |}] 100
           (form_with_cash "100") (world_of [soap 10] [soap 10]))
    = Ok (receipted (form_with_cash "100")
            (sale_row always_online 100 (form_with_cash "100") 2)
            [{| item_product := soap 10; quantity := 4 |}])
    /\ length (transactions (remote w')) = 1%nat
    /\ length (transaction_items (remote w')) = 1%nat.
Proof.
  destruct (checkout_records_the_sale always_online
              [{| item_product := soap 10; quantity := 4 |}] 100
              (form_with_cash "100") (world_of [soap 10] [soap 10]) _ _
              (checkStockAvailability_run _ _ _) eq_refl eq_refl eq_refl)
    as (w' & Hrun & Hsale & Hitems).
  exists w'. split; [by rewrite Hrun|].
  rewrite Hsale, Hitems. repeat split.
Defined.

Lemma cash_field_holds_an_amount_witness :
  cashGiven (cash_after ["1"; "12"; "12."; "12.5"; "12.5x"] (form_with_cash ""))
  = "12.5"
  /\ cash_pattern
       (cashGiven (cash_after ["1"; "12"; "12."; "12.5"; "12.5x"]
                     (form_with_cash ""))) = true.
Proof.
  split; [reflexivity|].
  exact (proj1 (cash_field_holds_an_amount
                  ["1"; "12"; "12."; "12.5"; "12.5x"] (form_with_cash "")
                  eq_refl)).
Defined.

Lemma cart_quantities_are_positive_witness :
  Forall from_the_screen
    [Add {| item_product := soap 10; quantity := 1 |};
     Add {| item_product := soap 10; quantity := 1 |};
     SetQuantity (IdNum 1) 5]
  /\ Forall (fun item => 1 <= quantity item)
       (cart_after
          [Add {| item_product := soap 10; quantity := 1 |};
           Add {| item_product := soap 10; quantity := 1 |};
           SetQuantity (IdNum 1) 5]).
Proof.
  assert (H : Forall from_the_screen
                [Add {| item_product := soap 10; quantity := 1 |};
                 Add {| item_product := soap 10; quantity := 1 |};
                 SetQuantity (IdNum 1) 5]).
  { repeat constructor; cbn; lia. }
  split; [exact H|]. exact (cart_quantities_are_positive _ H).
Defined.

(** ** From the sale to its receipt lines *)

Lemma filter_item_rows (row : Transaction) (cart : list CartItem)
    (old : list TransactionItem) :
  Forall (fun i => transaction_id i <> tx_id row) old ->
  filter (fun i => transaction_id i = tx_id row) (old ++ item_rows row cart)%list
  = item_rows row cart.
Proof.
  intros Hold. rewrite filter_app.
  assert (Hnone : filter (fun i => transaction_id i = tx_id row) old = []).
  { induction Hold as [|i old Hi _ IH]; [reflexivity|].
    rewrite filter_cons. by destruct (decide (transaction_id i = tx_id row)). }
  rewrite Hnone. cbn [app]. unfold item_rows.
  induction cart as [|item rest IH]; [reflexivity|].
  rewrite fmap_cons, filter_cons. cbn [transaction_id].
  destruct (decide (tx_id row = tx_id row)); [|done]. by rewrite IH.
Qed.

(** X30.  A recorded sale can be read back.  After a checkout whose two
    inserts succeeded, and provided the id the backend minted for the
    transaction was not already carried by an item row, opening that
    transaction on the transactions screen with a successful request
    shows exactly the item rows of the cart, in cart order, each with
    the name of its product on the backend, and opens the modal on that
    transaction. *)
Theorem recorded_sale_shows_its_cart_lines (env : Env) (cart : list CartItem)
    (total : Q) (st : ModalState) (w : World) (check : StockCheck)
    (w1 w' : World) (receipt_state : ModalState) (view : TransactionsState) :
  productService.checkStockAvailability env cart w = (Ok check, w1) ->
  success check = true ->
  remote_error env (S (S (calls w1))) = None ->
  remote_error env (S (S (S (calls w1)))) = None ->
  Forall (fun i => transaction_id i <> server_id env (S (S (calls w1))))
    (transaction_items (remote w)) ->
  CheckoutModal.handleSubmitTransaction env cart total st w
  = (Ok receipt_state, w') ->
  remote_error env (calls w') = None ->
  exists w'',
    TransactionsScreen.handleTransactionPress env
      (sale_row env total st (calls w1)) view w'
    = (Ok {| selectedTransaction := Some (sale_row env total st (calls w1));
             transactionItems :=
               (fun i => (i, name <$> lookup_product (product_id i)
                                        (products (remote w'))))
               <$> item_rows (sale_row env total st (calls w1)) cart;
             modalVisible := true; loadingItems := false |}, w'')
    /\ remote w'' = remote w'.
Proof.
  rewrite checkStockAvailability_run. intros [= <- <-] Hok Hsale Hitems Hfresh.
  rewrite handleSubmitTransaction_run. cbn zeta. rewrite Hok, Hsale, Hitems.
  intros [= _ <-] Hread.
  unfold TransactionsScreen.handleTransactionPress,
    TransactionsScreen.fetchTransactionItems, supabase.select_transaction_items,
    supabase.request.
  run_monad. rewrite Hread. cbn.
  match goal with
  | |- context [productService.deductStockAfterCheckout env cart ?W] =>
      destruct (deduct_keeps_sales env cart W) as [_ Hkept];
      set (sold := productService.deductStockAfterCheckout env cart W) in *
  end.
  rewrite Hkept. cbn [remote transaction_items].
  rewrite (filter_item_rows (sale_row env total st (calls (refreshed env w))));
    [|exact Hfresh].
  eexists. split; [reflexivity|]. by destruct (sold.2).
Qed.

Lemma recorded_sale_shows_its_cart_lines_witness :
  exists w'',
    fst (TransactionsScreen.handleTransactionPress always_online
           (sale_row always_online 100 (form_with_cash "100")
              (calls (refreshed always_online (world_of [soap 10] [soap 10]))))
           {| selectedTransaction := None; transactionItems := [];
              modalVisible := false; loadingItems := false |}
           (snd (CheckoutModal.handleSubmitTransaction always_online
                   [{| item_product := soap 10; quantity := 4 |}] 100
                   (form_with_cash "100") (world_of [soap 10] [soap 10]))))
    = Ok w''
    /\ (fun line => (product_id (fst line), ti_quantity (fst line), snd line))
       <$> transactionItems w''
       = [(IdNum 1, 4, Some "Soap")].
Proof.
  destruct (recorded_sale_shows_its_cart_lines always_online
              [{| item_product := soap 10; quantity := 4 |}] 100
              (form_with_cash "100") (world_of [soap 10] [soap 10]) _ _
              (snd (CheckoutModal.handleSubmitTransaction always_online
                      [{| item_product := soap 10; quantity := 4 |}] 100
                      (form_with_cash "100") (world_of [soap 10] [soap 10])))
              (receipted (form_with_cash "100")
                 (sale_row always_online 100 (form_with_cash "100")
                    (calls (refreshed always_online
                              (world_of [soap 10] [soap 10]))))
                 [{| item_product := soap 10; quantity := 4 |}])
              {| selectedTransaction := None; transactionItems := [];
                 modalVisible := false; loadingItems := false |}
              (checkStockAvailability_run _ _ _) eq_refl eq_refl eq_refl)
    as (w'' & Hrun & _).
  - constructor.
  - vm_compute. reflexivity.
  - reflexivity.
  - eexists. rewrite Hrun. split; [reflexivity|]. vm_compute. reflexivity.
Defined.
